(** * FIVLO backend: coin ledger, daily task-completion reward, weekly best day

    A shallow embedding of the parts of the FIVLO backend that the
    productivity-ledger specification talks about:

    - [CoinTransaction]: the Mongoose model of [models/CoinTransaction_old.js]
      (pre-save middleware, [cancel], [complete], the virtual fields and the
      summary of [getUserCoinStats]);
    - [TaskService]: [createTask], [completeTask], [toggleTaskCompletion],
      [createGrowthAlbum], [deleteTask], [getMonthlyTasks] and
      [checkDailyTaskCompletion] of [services/taskService_old.js];
    - [AnalysisService]: the [bestDay] reduction of [getWeeklyStats] and the
      count of active days;
    - [AiService]: [calculateConfidence] of [services/aiService.js].

    Conventions.  JavaScript numbers that hold coin amounts, minutes and
    timestamps are integers in the code paths modelled here and are embedded
    as [Z]; a [Date] is its number of milliseconds since the epoch.  MongoDB
    collections addressed by [_id] are finite maps, query results are lists.
    [async] functions are embedded in a state-and-exception monad over the
    database contents; a rejected promise is [Throw].  Calls to the logger
    have no effect on the database and are left out; a [catch] block that
    logs and rethrows is the identity. *)

From stdpp Require Import base gmap strings list.
From Stdlib Require Import ZArith QArith Lia Ascii.

Local Open Scope Z_scope.

(** ** JavaScript errors and the monad of asynchronous service code *)

Module Js.

(** A thrown error: [new Error(message)] with the optional [code] property
    that the coin model attaches, or the [ValidationError] with which
    mongoose rejects a document; [paths] are the keys of its [errors]
    object, in the order of the schema (its message text is not
    modelled). *)
Inductive Error :=
| mkError (message : string) (code : option string)
| ValidationError (paths : list string).

Inductive Result (A : Type) : Type :=
| Ok (a : A)
| Throw (e : Error).
Arguments Ok {A} a.
Arguments Throw {A} e.

(** A computation over a store [S]: it returns or throws, and leaves a
    store behind in both cases. *)
Definition M (S A : Type) : Type := S -> Result A * S.

Definition ret {S A} (a : A) : M S A := fun s => (Ok a, s).
Definition throw {S A} (e : Error) : M S A := fun s => (Throw e, s).
Definition bind {S A B} (c : M S A) (k : A -> M S B) : M S B :=
  fun s => match c s with
           | (Ok a, s') => k a s'
           | (Throw e, s') => (Throw e, s')
           end.
Definition gets {S A} (f : S -> A) : M S A := fun s => (Ok (f s), s).
Definition modify {S} (f : S -> S) : M S unit := fun s => (Ok tt, f s).

Definition isThrow {A} (r : Result A) : bool :=
  match r with Throw _ => true | Ok _ => false end.

(** *** Strings

    A string is embedded as its UTF-8 encoding.  The white space of
    [String.prototype.trim] is TAB, LF, VT, FF, CR, SP, U+00A0, U+1680,
    U+2000 to U+200A, U+2028, U+2029, U+202F, U+205F, U+3000 and U+FEFF:
    six characters of one byte, one of two bytes and the others of three
    bytes. *)
Definition whiteSpace1 (a : ascii) : bool :=
  let n := N_of_ascii a in
  ((n =? 32) || ((9 <=? n) && (n <=? 13)))%N.

Definition whiteSpace2 (a b : ascii) : bool :=
  ((N_of_ascii a =? 194) && (N_of_ascii b =? 160))%N.

Definition whiteSpace3 (a b c : ascii) : bool :=
  let x := N_of_ascii a in
  let y := N_of_ascii b in
  let z := N_of_ascii c in
  (((x =? 225) && (y =? 154) && (z =? 128))
   || ((x =? 226) && (y =? 128)
       && (((128 <=? z) && (z <=? 138))
           || (z =? 168) || (z =? 169) || (z =? 175)))
   || ((x =? 226) && (y =? 129) && (z =? 159))
   || ((x =? 227) && (y =? 128) && (z =? 128))
   || ((x =? 239) && (y =? 187) && (z =? 191)))%N.

(** Dropping the white space at the front. *)
Fixpoint trimStart (s : string) : string :=
  match s with
  | String.String a r =>
    if whiteSpace1 a then trimStart r
    else
      match r with
      | String.String b r' =>
        if whiteSpace2 a b then trimStart r'
        else
          match r' with
          | String.String c r'' =>
            if whiteSpace3 a b c then trimStart r'' else s
          | String.EmptyString => s
          end
      | String.EmptyString => s
      end
  | String.EmptyString => String.EmptyString
  end.

(** The same on the reversed byte sequence, where the bytes of a character
    come last byte first. *)
Fixpoint trimStartReversed (s : string) : string :=
  match s with
  | String.String c r =>
    if whiteSpace1 c then trimStartReversed r
    else
      match r with
      | String.String b r' =>
        if whiteSpace2 b c then trimStartReversed r'
        else
          match r' with
          | String.String a r'' =>
            if whiteSpace3 a b c then trimStartReversed r'' else s
          | String.EmptyString => s
          end
      | String.EmptyString => s
      end
  | String.EmptyString => String.EmptyString
  end.

Definition reverse (s : string) : string :=
  String.string_of_list_ascii (rev (String.list_ascii_of_string s)).

(** [String.prototype.trim] *)
Definition trim (s : string) : string :=
  reverse (trimStartReversed (reverse (trimStart s))).

(** [s.length], the number of UTF-16 code units: one for every character
    of up to three bytes, two for a character of four bytes. *)
Fixpoint jsLength (s : string) : nat :=
  match s with
  | String.String a r =>
    let n := N_of_ascii a in
    ((if ((n <? 128) || (192 <=? n))%N then 1 else 0)
     + (if (240 <=? n)%N then 1 else 0)
     + jsLength r)%nat
  | String.EmptyString => 0%nat
  end.

End Js.

Import Js.

Notation "'let*' x ':=' c 'in' k" := (bind c (fun x => k))
  (at level 10, x name, c at level 100, k at level 200).
Notation "c ';;' k" := (bind c (fun _ => k))
  (at level 100, k at level 200, right associativity).

(** ** models/CoinTransaction_old.js *)

Module CoinTransaction.

Inductive Status := pending | completed | failed | cancelled.

Inductive TxType :=
| earned_task_completion
| earned_pomodoro_completion
| earned_reminder_completion
| earned_daily_login
| earned_special_event
| spent_item_purchase
| spent_customization
| refund_item_return
| admin_adjustment.

(** The schema's fields that the methods below read or write.  [status]
    defaults to [completed]. *)
Record t := mk {
  _id : nat;
  userId : nat;
  amount : Z;
  balanceAfter : Z;
  type : TxType;
  description : string;
  status : Status
}.

Definition defaultStatus : Status := completed.

Definition Status_eqb (a b : Status) : bool :=
  match a, b with
  | pending, pending | completed, completed
  | failed, failed | cancelled, cancelled => true
  | _, _ => false
  end.

Definition set_status (s : Status) (d : t) : t :=
  mk (_id d) (userId d) (amount d) (balanceAfter d) (type d) (description d) s.
Definition set_description (s : string) (d : t) : t :=
  mk (_id d) (userId d) (amount d) (balanceAfter d) (type d) s (status d).

(** An instance method runs on a document held in memory ([this]) and on
    the collection ([db]). *)
Record Ctx := mkCtx { this : t; db : gmap nat t }.

Definition onThis (f : t -> t) : M Ctx unit :=
  modify (fun c => mkCtx (f (this c)) (db c)).

Definition insufficientBalance : Error :=
  mkError "잔액이 부족합니다." (Some "INSUFFICIENT_BALANCE"%string).
Definition zeroAmount : Error :=
  mkError "거래 금액이 0일 수 없습니다." None.
Definition cannotCancel : Error :=
  mkError "완료된 거래는 취소할 수 없습니다." None.
Definition alreadyProcessed : Error :=
  mkError "이미 처리된 거래입니다." None.

(** [coinTransactionSchema.pre('save', ...)]: [None] is [next()], [Some e]
    is [next(e)]. *)
Definition preSave (d : t) : option Error :=
  if balanceAfter d <? 0 then Some insufficientBalance
  else if amount d =? 0 then Some zeroAmount
  else None.

(** The declarative bound [balanceAfter: { min: 0 }] of the schema. *)
Definition minBalanceAfter (d : t) : bool := 0 <=? balanceAfter d.

(** What the ledger promises of every stored transaction. *)
Definition wellFormed (d : t) : Prop :=
  0 ≤ balanceAfter d ∧ amount d ≠ 0.

(** The validators of [description]: [required] (a string that is not
    empty) and [maxlength: 200]. *)
Definition descriptionValid (d : t) : bool :=
  let n := jsLength (description d) in
  negb (n =? 0)%nat && (n <=? 200)%nat.

(** The validation that mongoose runs before the [pre('save')] middleware,
    on a document whose paths are all set: the paths that fail.  The
    typed fields leave [balanceAfter] and [description] as the paths that
    can fail. *)
Definition validate (d : t) : list string :=
  (if minBalanceAfter d then [] else ["balanceAfter"%string])
  ++ (if descriptionValid d then [] else ["description"%string]).

(** What stops a save: the validation error, or else the error of the
    middleware. *)
Definition saveError (d : t) : option Error :=
  match validate d with
  | [] => preSave d
  | paths => Some (ValidationError paths)
  end.

(** [this.save()]: a document that passes the validators and the
    middleware is written under its [_id] (inserted when new, replaced
    otherwise). *)
Definition save : M Ctx unit :=
  let* d := gets this in
  match saveError d with
  | Some e => throw e
  | None => modify (fun c => mkCtx (this c) (<[_id d := d]> (db c)))
  end.

(** [coinTransactionSchema.methods.cancel]; the assignment to
    [description] goes through the setter of [trim: true]. *)
Definition cancel (reason : string) : M Ctx unit :=
  let* d := gets this in
  if negb (Status_eqb (status d) pending) then throw cannotCancel
  else
    onThis (set_status cancelled) ;;
    onThis (fun d => set_description
              (trim (description d ++ " (취소됨: " ++ reason ++ ")")%string) d) ;;
    save.

(** [coinTransactionSchema.methods.complete] *)
Definition complete : M Ctx unit :=
  let* d := gets this in
  if negb (Status_eqb (status d) pending) then throw alreadyProcessed
  else
    onThis (set_status completed) ;;
    save.

(** Everything that writes to the collection: saving a document, or
    cancelling or completing one. *)
Inductive Op :=
| OpSave (d : t)
| OpCancel (d : t) (reason : string)
| OpComplete (d : t).

Definition step (o : Op) (store : gmap nat t) : gmap nat t :=
  match o with
  | OpSave d => db (snd (save (mkCtx d store)))
  | OpCancel d reason => db (snd (cancel reason (mkCtx d store)))
  | OpComplete d => db (snd (complete (mkCtx d store)))
  end.

Definition run (ops : list Op) (store : gmap nat t) : gmap nat t :=
  foldl (fun s o => step o s) store ops.

(** The virtual fields [isEarned], [isSpent] and [absoluteAmount]. *)
Definition isEarned (d : t) : bool := amount d >? 0.
Definition isSpent (d : t) : bool := amount d <? 0.
Definition absoluteAmount (d : t) : Z := Z.abs (amount d).

(** A document as the collection holds it: the schema option
    [timestamps: true] adds [createdAt]. *)
Record Stored := mkStored { doc : t; createdAt : Z }.

(** The [summary] of [getUserCoinStats]. *)
Record Summary := mkSummary {
  totalEarned : Z;
  totalSpent : Z;
  totalTransactions : Z
}.

Definition sumZ (l : list Z) : Z := foldr Z.add 0 l.

(** The [$match] stage of the statistics: the user's completed
    transactions created at or after [startDate]. *)
Definition statsMatch (uid : nat) (startDate : Z) (s : Stored) : bool :=
  (userId (doc s) =? uid)%nat
  && (startDate <=? createdAt s)
  && Status_eqb (status (doc s)) completed.

(** The [$group] stage with [_id: null]: one output document, and none
    when no document reaches the stage. *)
Definition groupSummary (l : list Stored) : list Summary :=
  match l with
  | [] => []
  | _ :: _ =>
    [ mkSummary
        (sumZ (map (fun s => if amount (doc s) >? 0
                             then amount (doc s) else 0) l))
        (sumZ (map (fun s => if amount (doc s) <? 0
                             then Z.abs (amount (doc s)) else 0) l))
        (Z.of_nat (length l)) ]
  end.

(** The [summary] part of [getUserCoinStats(userId, days)], read at the
    instant [now]: [startDate] is [now] moved back by [days] days (days of
    24 hours: the local time has a constant offset), and
    [summary[0] || {...}] falls back to zeros. *)
Definition getUserCoinStats_summary (uid : nat) (days now : Z)
    (collection : list Stored) : Summary :=
  let startDate := now - days * 86400000 in
  let summary := groupSummary (List.filter (statsMatch uid startDate) collection) in
  default (mkSummary 0 0 0) (head summary).

End CoinTransaction.

(** ** The documents of the other Mongoose models

    [models/User], [models/Task], [models/Category] and
    [models/GrowthAlbum] are required by the service; their schemas are not
    embedded.  The records below carry the fields that the service reads
    and writes. *)

Module User.

(** An element of [user.dailyRewards]. *)
Record DailyReward := mkReward { type : string; amount : Z; date : Z }.

Record t := mk {
  isPremium : bool;
  coins : Z;
  dailyRewards : list DailyReward
}.

End User.

Module Task.

Record t := mk {
  _id : nat;
  userId : nat;
  categoryId : nat;
  title : string;
  description : string;
  date : Z;
  time : option string;
  priority : string;
  isRepeating : bool;
  repeatType : option string;
  repeatDays : list Z;
  repeatEndDate : option Z;
  hasGrowthAlbum : bool;
  tags : list string;
  estimatedMinutes : option Z;
  color : string;
  isCompleted : bool;
  completedAt : option Z;
  actualMinutes : option Z
}.

End Task.

Module Category.

Record t := mk {
  _id : nat;
  userId : nat;
  color : string;
  taskCount : Z;
  completedCount : Z
}.

End Category.

Module GrowthAlbum.

Record t := mk {
  userId : nat;
  taskId : nat;
  imageUrl : string;
  imagePath : string;
  imageSize : Z;
  imageType : string;
  thumbnailUrl : string;
  thumbnailPath : string;
  memo : string;
  tags : list string;
  mood : option string;
  rating : option Z
}.

End GrowthAlbum.

(** ** services/taskService_old.js *)

Module TaskService.

(** The database as the service sees it. *)
Record World := mkWorld {
  users : gmap nat User.t;
  tasks : list Task.t;
  categories : gmap nat Category.t;
  growthAlbums : list GrowthAlbum.t
}.

Definition set_users (f : gmap nat User.t -> gmap nat User.t) (w : World) :=
  mkWorld (f (users w)) (tasks w) (categories w) (growthAlbums w).
Definition set_tasks (f : list Task.t -> list Task.t) (w : World) :=
  mkWorld (users w) (f (tasks w)) (categories w) (growthAlbums w).
Definition set_categories
    (f : gmap nat Category.t -> gmap nat Category.t) (w : World) :=
  mkWorld (users w) (tasks w) (f (categories w)) (growthAlbums w).
Definition set_growthAlbums
    (f : list GrowthAlbum.t -> list GrowthAlbum.t) (w : World) :=
  mkWorld (users w) (tasks w) (categories w) (f (growthAlbums w)).

(** *** Strings and dates *)

Definition msPerDay : Z := 86400000.

(** [d.toISOString().split('T')[0]]: the UTC calendar date of [d].  Two
    such strings are equal exactly when the instants fall on the same UTC
    day, so the string is represented by the UTC day number. *)
Definition isoDate (d : Z) : Z := d / msPerDay.

Section LocalTime.

(** Offset of the server's local time from UTC, in milliseconds (east
    positive), taken as constant. *)
Variable tzOffset : Z.

(** [new Date(d.getFullYear(), d.getMonth(), d.getDate())] *)
Definition startOfDay (d : Z) : Z :=
  (d + tzOffset) / msPerDay * msPerDay - tzOffset.

(** [new Date(d.getFullYear(), d.getMonth(), d.getDate(), 23, 59, 59, 999)] *)
Definition endOfDay (d : Z) : Z :=
  startOfDay d + (23 * 3600000 + 59 * 60000 + 59 * 1000 + 999).

(** *** Queries *)

Definition User_findById (userId : nat) : M World (option User.t) :=
  gets (fun w => users w !! userId).

Definition User_save (userId : nat) (u : User.t) : M World unit :=
  modify (set_users <[userId := u]>).

(** [Task.find({ userId, date: { $gte, $lte } })] *)
Definition tasksBetween (userId : nat) (gte lte : Z) (l : list Task.t)
  : list Task.t :=
  filter (fun t => Task.userId t = userId
                   ∧ gte ≤ Task.date t ∧ Task.date t ≤ lte) l.

Definition Task_findByDate (userId : nat) (gte lte : Z)
  : M World (list Task.t) :=
  gets (fun w => tasksBetween userId gte lte (tasks w)).

(** [Task.findOne({ _id: taskId, userId })] *)
Definition Task_findOne (taskId userId : nat) : M World (option Task.t) :=
  gets (fun w =>
    List.find (fun t => (Task._id t =? taskId)%nat
                        && (Task.userId t =? userId)%nat) (tasks w)).

(** The result of the query that [checkDailyTaskCompletion] issues. *)
Definition todayTasks (userId : nat) (today : Z) (w : World)
  : list Task.t :=
  tasksBetween userId (startOfDay today) (endOfDay today) (tasks w).

(** [Category.findOne({ _id: categoryId, userId })] *)
Definition Category_findOne (categoryId userId : nat)
  : M World (option Category.t) :=
  gets (fun w =>
    match categories w !! categoryId with
    | Some c => if (Category.userId c =? userId)%nat then Some c else None
    | None => None
    end).

(** Writing a task document: it replaces the stored document with the
    same [_id], or is added when there is none. *)
Fixpoint upsert (t : Task.t) (l : list Task.t) : list Task.t :=
  match l with
  | [] => [t]
  | x :: r => if (Task._id x =? Task._id t)%nat then t :: r
              else x :: upsert t r
  end.

(** *** checkDailyTaskCompletion *)

Record CoinReward := mkCoinReward {
  rewarded : bool;
  amount : Z;
  totalCoins : Z;
  message : string
}.

Definition rewardMessage : string :=
  "모든 할일을 완료하여 코인을 받았습니다!".

(** [user.dailyRewards.some(reward => ... )] for the day of [today]. *)
Definition alreadyRewarded (user : User.t) (today : Z) : bool :=
  let todayString := isoDate today in
  existsb (fun reward =>
             (isoDate (User.date reward) =? todayString)
             && String.eqb (User.type reward) "task_completion")
          (User.dailyRewards user).

(** The service reads the clock twice: [today] at the start, and
    [now] for the date of the reward it records. *)
Definition checkDailyTaskCompletion (userId : nat) (today now : Z)
  : M World (option CoinReward) :=
  let* user := User_findById userId in
  match user with
  | None => ret None
  | Some user =>
    if negb (User.isPremium user) then ret None
    else
      let* todayTasks :=
        Task_findByDate userId (startOfDay today) (endOfDay today) in
      if (length todayTasks =? 0)%nat then ret None
      else
        let allCompleted := forallb Task.isCompleted todayTasks in
        if allCompleted then
          if negb (alreadyRewarded user today) then
            let rewardAmount := 1 in
            let user :=
              User.mk (User.isPremium user)
                      (User.coins user + rewardAmount)
                      (User.dailyRewards user ++
                         [User.mkReward "task_completion" rewardAmount now])
            in
            User_save userId user ;;
            ret (Some (mkCoinReward true rewardAmount (User.coins user)
                                    rewardMessage))
          else ret None
        else ret None
  end.

End LocalTime.

(** The user document that the minting branch saves. *)
Definition credited (user : User.t) (now : Z) : User.t :=
  User.mk (User.isPremium user) (User.coins user + 1)
          (User.dailyRewards user ++ [User.mkReward "task_completion" 1 now]).

(** The four tests of the gate, in one condition. *)
Definition mints (user : User.t) (due : list Task.t) (today : Z) : bool :=
  User.isPremium user
  && negb (length due =? 0)%nat
  && forallb Task.isCompleted due
  && negb (alreadyRewarded user today).

(** A sequence of gate calls, each given by the calling user and its two
    clock readings, run one after the other. *)
Definition gateCalls (tzOffset : Z) (calls : list (nat * Z * Z)) (w : World)
  : World :=
  foldl (fun w call =>
           snd (checkDailyTaskCompletion tzOffset call.1.1 call.1.2 call.2 w))
        w calls.

(** *** createTask and completeTask *)

(** The request body of task creation, with its properties as strings,
    numbers and booleans; [None] is a property that is absent
    ([undefined]), for which the defaults of the destructuring apply.  An
    end date is given as its time value, and 0 is falsy. *)
Module TaskData.
Record t := mk {
  title : string;
  description : option string;
  categoryId : nat;
  date : Z;
  time : option string;
  priority : option string;
  isRepeating : option bool;
  repeatType : option string;
  repeatDays : option (list Z);
  repeatEndDate : option Z;
  hasGrowthAlbum : option bool;
  tags : option (list string);
  estimatedMinutes : option Z
}.
End TaskData.

Module GrowthAlbumData.
Record t := mk {
  imageUrl : string;
  imagePath : string;
  imageSize : Z;
  imageType : string;
  thumbnailUrl : string;
  thumbnailPath : string;
  memo : option string;
  tags : option (list string);
  mood : option string;
  rating : option Z
}.
End GrowthAlbumData.

Module CompletionData.
Record t := mk {
  actualMinutes : option Z;
  growthAlbumData : option GrowthAlbumData.t
}.
End CompletionData.

Definition invalidCategory : Error :=
  mkError "유효하지 않은 카테고리입니다." None.
Definition taskNotFound : Error :=
  mkError "Task를 찾을 수 없습니다." None.
Definition alreadyCompleted : Error :=
  mkError "이미 완료된 Task입니다." None.

(** [x || null] on an optional string or number: the empty string and
    zero are falsy. *)
Definition truthyString (o : option string) : option string :=
  match o with
  | Some s => if String.eqb s "" then None else Some s
  | None => None
  end.
Definition truthyNumber (o : option Z) : option Z :=
  match o with
  | Some n => if n =? 0 then None else Some n
  | None => None
  end.

(** The image data that the upload route hands to [createGrowthAlbum]. *)
Module AlbumData.
Record t := mk {
  imageUrl : string;
  thumbnailUrl : string;
  imagePath : option string;
  thumbnailPath : option string;
  memo : option string;
  imageSize : option Z;
  imageType : option string
}.
End AlbumData.

(** [{ success: true }] *)
Record DeleteResult := mkDeleteResult { success : bool }.

(** The result of [getMonthlyTasks]. *)
Record MonthlySummary := mkMonthlySummary {
  totalTasks : nat;
  completedTasks : nat;
  activeDays : nat
}.
Record MonthlyTasks := mkMonthlyTasks {
  tasksByDate : gmap string (list Task.t);
  summary : MonthlySummary
}.

(** In MongoDB the [_id] of a document is unique in its collection. *)
Definition uniqueIds (w : World) : Prop := NoDup (map Task._id (tasks w)).

(** The sum of the amounts in a reward list, and the number of
    [task_completion] rewards on a UTC day. *)
Definition rewardTotal (l : list User.DailyReward) : Z :=
  foldr (fun r acc => User.amount r + acc) 0 l.
Definition rewardsOn (day : Z) (l : list User.DailyReward) : nat :=
  length (List.filter (fun r => (isoDate (User.date r) =? day)
                                && String.eqb (User.type r) "task_completion") l).

Section Models.

(** What the service uses of [models/Task] and [models/Category]
    beyond plain reads and writes:
    - the validation that [task.save()] runs ([None]: the document is
      accepted),
    - the instances that [task.createRepeatingTasks()] stores,
    - the document that [task.complete(actualMinutes)] leaves,
    - the category document that [category.updateStats()] stores, given
      the tasks in the database.
    The calls [createRepeatingTasks()], [updateStats()] and
    [growthAlbum.save()] are taken to complete: only [task.save()] is
    modelled with a rejection. *)
Variable Task_validate : Task.t -> option Error.
Variable Task_createRepeatingTasks : Task.t -> list Task.t.
Variable Task_complete : option Z -> Task.t -> Task.t.
Variable Category_updateStats : Category.t -> list Task.t -> Category.t.

(** [task.save()] *)
Definition Task_save (t : Task.t) : M World unit :=
  match Task_validate t with
  | Some e => throw e
  | None => modify (set_tasks (upsert t))
  end.

Definition createRepeatingTasks (t : Task.t) : M World unit :=
  modify (set_tasks (fun l => l ++ Task_createRepeatingTasks t)).

Definition updateStats (c : Category.t) : M World unit :=
  modify (fun w =>
    set_categories <[Category._id c := Category_updateStats c (tasks w)]> w).

Definition GrowthAlbum_save (a : GrowthAlbum.t) : M World unit :=
  modify (set_growthAlbums (fun l => l ++ [a])).

(** The document built by [new Task({...})] in [createTask]; [oid] is
    the [_id] drawn for it, and [isCompleted], [completedAt] and
    [actualMinutes] take the values of a task that is not completed. *)
Definition newTask (oid userId : nat) (taskData : TaskData.t)
    (category : Category.t) : Task.t :=
  let title := TaskData.title taskData in
  let description := default ""%string (TaskData.description taskData) in
  let categoryId := TaskData.categoryId taskData in
  let date := TaskData.date taskData in
  let time := TaskData.time taskData in
  let priority := default "medium"%string (TaskData.priority taskData) in
  let isRepeating := default false (TaskData.isRepeating taskData) in
  let repeatType := TaskData.repeatType taskData in
  let repeatDays := default [] (TaskData.repeatDays taskData) in
  let repeatEndDate := TaskData.repeatEndDate taskData in
  let hasGrowthAlbum := default false (TaskData.hasGrowthAlbum taskData) in
  let tags := default [] (TaskData.tags taskData) in
  let estimatedMinutes := TaskData.estimatedMinutes taskData in
  Task.mk oid userId categoryId (trim title) (trim description)
    date time priority isRepeating
    (if isRepeating then repeatType else None)
    (if isRepeating then repeatDays else [])
    (if isRepeating then truthyNumber repeatEndDate else None)
    hasGrowthAlbum tags estimatedMinutes (Category.color category)
    false None None.

(** [createTask(userId, taskData)] *)
Definition createTask (oid userId : nat) (taskData : TaskData.t)
  : M World Task.t :=
  let categoryId := TaskData.categoryId taskData in
  let isRepeating := default false (TaskData.isRepeating taskData) in
  let repeatEndDate := TaskData.repeatEndDate taskData in
  let* category := Category_findOne categoryId userId in
  match category with
  | None => throw invalidCategory
  | Some category =>
    let task := newTask oid userId taskData category in
    Task_save task ;;
    (if isRepeating && bool_decide (is_Some (truthyNumber repeatEndDate))
     then createRepeatingTasks task else ret tt) ;;
    updateStats category ;;
    ret task
  end.

(** [completeTask(userId, taskId, completionData)] *)
Definition completeTask (userId taskId : nat)
    (completionData : CompletionData.t)
  : M World (Task.t * option GrowthAlbum.t) :=
  let actualMinutes := CompletionData.actualMinutes completionData in
  let growthAlbumData := CompletionData.growthAlbumData completionData in
  let* task := Task_findOne taskId userId in
  match task with
  | None => throw taskNotFound
  | Some task =>
    if Task.isCompleted task then throw alreadyCompleted
    else
      let task := Task_complete actualMinutes task in
      Task_save task ;;
      match Task.hasGrowthAlbum task, growthAlbumData with
      | true, Some g =>
        let growthAlbum :=
          GrowthAlbum.mk userId (Task._id task)
            (GrowthAlbumData.imageUrl g) (GrowthAlbumData.imagePath g)
            (GrowthAlbumData.imageSize g) (GrowthAlbumData.imageType g)
            (GrowthAlbumData.thumbnailUrl g)
            (GrowthAlbumData.thumbnailPath g)
            (default ""%string (truthyString (GrowthAlbumData.memo g)))
            (default [] (GrowthAlbumData.tags g))
            (truthyString (GrowthAlbumData.mood g))
            (truthyNumber (GrowthAlbumData.rating g)) in
        GrowthAlbum_save growthAlbum ;;
        ret (task, Some growthAlbum)
      | _, _ => ret (task, None)
      end
  end.

(** [toggleTaskCompletion(userId, taskId, isCompleted)]; [isCompleted] is
    [None] when the argument is [undefined], and [now] is the reading of
    the clock for [completedAt]. *)
Definition set_completion (flag : bool) (completedAt : option Z) (t : Task.t)
  : Task.t :=
  Task.mk (Task._id t) (Task.userId t) (Task.categoryId t) (Task.title t)
          (Task.description t) (Task.date t) (Task.time t) (Task.priority t)
          (Task.isRepeating t) (Task.repeatType t) (Task.repeatDays t)
          (Task.repeatEndDate t) (Task.hasGrowthAlbum t) (Task.tags t)
          (Task.estimatedMinutes t) (Task.color t) flag completedAt
          (Task.actualMinutes t).

Definition toggleTaskCompletion (userId taskId : nat)
    (isCompleted : option bool) (now : Z) : M World Task.t :=
  let* task := Task_findOne taskId userId in
  match task with
  | None => throw taskNotFound
  | Some task =>
    let flag := match isCompleted with
                | Some b => b
                | None => negb (Task.isCompleted task)
                end in
    let task := set_completion flag (if flag then Some now else None) task in
    Task_save task ;;
    ret task
  end.

(** [createGrowthAlbum(userId, taskId, albumData)] *)
Definition set_hasGrowthAlbum (b : bool) (t : Task.t) : Task.t :=
  Task.mk (Task._id t) (Task.userId t) (Task.categoryId t) (Task.title t)
          (Task.description t) (Task.date t) (Task.time t) (Task.priority t)
          (Task.isRepeating t) (Task.repeatType t) (Task.repeatDays t)
          (Task.repeatEndDate t) b (Task.tags t)
          (Task.estimatedMinutes t) (Task.color t) (Task.isCompleted t)
          (Task.completedAt t) (Task.actualMinutes t).

(** The album document built by [createGrowthAlbum]; [tags], [mood] and
    [rating] are not passed and stay empty. *)
Definition newAlbum (userId taskId : nat) (albumData : AlbumData.t)
  : GrowthAlbum.t :=
  GrowthAlbum.mk userId taskId
    (AlbumData.imageUrl albumData)
    (default (AlbumData.imageUrl albumData)
             (truthyString (AlbumData.imagePath albumData)))
    (default 0 (truthyNumber (AlbumData.imageSize albumData)))
    (default "image/jpeg"%string (truthyString (AlbumData.imageType albumData)))
    (AlbumData.thumbnailUrl albumData)
    (default (AlbumData.thumbnailUrl albumData)
             (truthyString (AlbumData.thumbnailPath albumData)))
    (default ""%string (truthyString (AlbumData.memo albumData)))
    [] None None.

Definition createGrowthAlbum (userId taskId : nat) (albumData : AlbumData.t)
  : M World GrowthAlbum.t :=
  let* task := Task_findOne taskId userId in
  match task with
  | None => throw taskNotFound
  | Some task =>
    let growthAlbum := newAlbum userId taskId albumData in
    GrowthAlbum_save growthAlbum ;;
    (if negb (Task.hasGrowthAlbum task)
     then Task_save (set_hasGrowthAlbum true task)
     else ret tt) ;;
    ret growthAlbum
  end.

(** [deleteTask(userId, taskId)]: [album.deleteOne()] for every album found
    by [GrowthAlbum.find({ taskId: task._id })], then [task.deleteOne()]. *)
Definition deleteTask (userId taskId : nat) : M World DeleteResult :=
  let* task := Task_findOne taskId userId in
  match task with
  | None => throw taskNotFound
  | Some task =>
    (if Task.hasGrowthAlbum task
     then modify (set_growthAlbums
                    (filter (fun a => GrowthAlbum.taskId a ≠ Task._id task)))
     else ret tt) ;;
    modify (set_tasks (filter (fun t => Task._id t ≠ Task._id task))) ;;
    ret (mkDeleteResult true)
  end.

(** [getMonthlyTasks(userId, year, month)].  The query
    [Task.getMonthlyTasks] and the virtual [formattedDate] belong to the
    Task model. *)
Variable Task_getMonthlyTasks : nat -> Z -> Z -> list Task.t -> list Task.t.
Variable Task_formattedDate : Task.t -> string.

(** The [forEach] that fills [tasksByDate]. *)
Definition groupByDate (l : list Task.t) : gmap string (list Task.t) :=
  foldl (fun tasksByDate task =>
           let dateKey := Task_formattedDate task in
           <[dateKey := default [] (tasksByDate !! dateKey) ++ [task]]>
             tasksByDate)
        ∅ l.

Definition getMonthlyTasks (userId : nat) (year month : Z)
  : M World MonthlyTasks :=
  let* found := gets (fun w => Task_getMonthlyTasks userId year month (tasks w)) in
  let tasksByDate := groupByDate found in
  ret (mkMonthlyTasks tasksByDate
         (mkMonthlySummary (length found)
                           (length (List.filter Task.isCompleted found))
                           (size tasksByDate))).

End Models.

End TaskService.

(** ** The weekly statistics of the analysis service *)

Module AnalysisService.

(** One element of [weeklyData]: a calendar day of the week with its
    summed focus minutes and its session count. *)
Record DayBucket := mkBucket { date : string; minutes : Z; sessions : Z }.

(** The callback of the reduction in [getWeeklyStats]:
    [(best, current) => current.minutes > best.minutes ? current : best]. *)
Definition better (best current : DayBucket) : DayBucket :=
  if minutes current >? minutes best then current else best.

(** [weeklyData.reduce(better, weeklyData[0])].  On the empty array
    [weeklyData[0]] is [undefined] and so is the result. *)
Definition bestDay (weeklyData : list DayBucket) : option DayBucket :=
  match weeklyData with
  | [] => None
  | first :: _ => Some (foldl better first weeklyData)
  end.

(** [b], found at position [i], is the earliest maximum of [l]. *)
Definition earliestMax (l : list DayBucket) (i : nat) (b : DayBucket) : Prop :=
  l !! i = Some b
  ∧ (∀ x, x ∈ l → minutes x ≤ minutes b)
  ∧ (∀ j y, (j < i)%nat → l !! j = Some y → minutes y < minutes b).

(** [data.filter(day => day.minutes > 0).length], the number of active
    days that [getMonthlyStats] and the analysis routes report. *)
Definition activeDays (data : list DayBucket) : nat :=
  length (List.filter (fun day => minutes day >? 0) data).

End AnalysisService.

(** ** services/aiService.js *)

Module AiService.

(** The fields of [stats] that the confidence reads.  The counts are
    integers; the completion rate is a percentage that need not be one. *)
Record Stats := mkStats {
  totalSessions : Z;
  completionRate : Q;
  totalDays : Z
}.

(** [calculateConfidence(stats)] *)
Definition calculateConfidence (stats : Stats) : Z :=
  let confidence := 0 in
  let confidence :=
    if 30 <=? totalSessions stats then confidence + 40
    else if 15 <=? totalSessions stats then confidence + 25
    else if 5 <=? totalSessions stats then confidence + 15
    else confidence in
  let confidence :=
    if Qle_bool (80 # 1) (completionRate stats) then confidence + 30
    else if Qle_bool (60 # 1) (completionRate stats) then confidence + 20
    else if Qle_bool (40 # 1) (completionRate stats) then confidence + 10
    else confidence in
  let confidence :=
    if 14 <=? totalDays stats then confidence + 30
    else if 7 <=? totalDays stats then confidence + 20
    else if 3 <=? totalDays stats then confidence + 10
    else confidence in
  Z.min confidence 100.

(** The three contributions, each read off one [if]/[else if] chain. *)
Definition sessionScore (n : Z) : Z :=
  if 30 <=? n then 40 else if 15 <=? n then 25 else if 5 <=? n then 15 else 0.
Definition completionScore (r : Q) : Z :=
  if Qle_bool (80 # 1) r then 30
  else if Qle_bool (60 # 1) r then 20
  else if Qle_bool (40 # 1) r then 10 else 0.
Definition consistencyScore (n : Z) : Z :=
  if 14 <=? n then 30 else if 7 <=? n then 20 else if 3 <=? n then 10 else 0.

End AiService.

(** * Example data

    A small database in the server's time zone, used to run the service
    on concrete requests. *)

Module Examples.

Import TaskService.

(** Asia/Seoul: UTC+9. *)
Definition seoul : Z := 9 * 3600000.

(** [new Date("2025-01-15")] and the day after. *)
Definition jan15 : Z := 1736899200000.
Definition jan16 : Z := jan15 + msPerDay.

(** Clock readings on 2025-01-15, 10:00 and 10:05 in Seoul; each call
    reads the clock a second time a little later. *)
Definition at1000 : Z := jan15 + 3600000.
Definition at1000' : Z := at1000 + 120.
Definition at1005 : Z := at1000 + 300000.
Definition at1005' : Z := at1005 + 120.

(** 08:30 and 09:30 in Seoul on the same morning: the UTC date changes at
    09:00 local time. *)
Definition at0830 : Z := jan15 - 1800000.
Definition at0830' : Z := at0830 + 120.
Definition at0930 : Z := jan15 + 1800000.
Definition at0930' : Z := at0930 + 120.

Definition task (id userId : nat) (date : Z) (done : bool) : Task.t :=
  Task.mk id userId 1 "읽기" "" date None "medium" false None [] None
          false [] None "#FF6B6B" done None None.

Definition premiumUser : User.t := User.mk true 5 [].
Definition freeUser : User.t := User.mk false 5 [].

Definition someUsers : gmap nat User.t :=
  {[ 1%nat := premiumUser; 2%nat := freeUser ]}.
Definition someCategories : gmap nat Category.t :=
  {[ 1%nat := Category.mk 1 1 "#FF6B6B" 0 0 ]}.

(** Every task due on the 15th is completed. *)
Definition allDone : World :=
  mkWorld someUsers
          [task 10 1 jan15 true; task 11 1 jan15 true; task 12 2 jan15 true;
           task 13 1 jan16 false]
          someCategories [].

(** One of the five tasks of user 1 due on the 15th is open. *)
Definition oneOpen : World :=
  mkWorld someUsers
          [task 10 1 jan15 true; task 11 1 jan15 true; task 12 1 jan15 false;
           task 13 1 jan15 true; task 14 1 jan15 true]
          someCategories [].

(** User 1 has nothing due on the 15th. *)
Definition nothingDue : World :=
  mkWorld someUsers [task 13 1 jan16 true] someCategories [].

(** A Task schema without validators of its own, a recurrence that yields
    no instance, a completion step that sets the flag, and category
    statistics that count the tasks of the category. *)
Definition acceptAll (t : Task.t) : option Error := None.
Definition noInstances (t : Task.t) : list Task.t := [].
Definition markCompleted (actualMinutes : option Z) (t : Task.t) : Task.t :=
  Task.mk (Task._id t) (Task.userId t) (Task.categoryId t) (Task.title t)
          (Task.description t) (Task.date t) (Task.time t) (Task.priority t)
          (Task.isRepeating t) (Task.repeatType t) (Task.repeatDays t)
          (Task.repeatEndDate t) (Task.hasGrowthAlbum t) (Task.tags t)
          (Task.estimatedMinutes t) (Task.color t) true (Some (Task.date t))
          actualMinutes.
Definition countTasks (c : Category.t) (l : list Task.t) : Category.t :=
  let mine := List.filter (fun t => (Task.categoryId t =? Category._id c)%nat) l in
  Category.mk (Category._id c) (Category.userId c) (Category.color c)
              (Z.of_nat (length mine))
              (Z.of_nat (length (List.filter Task.isCompleted mine))).

(** A daily repeating task without an end date. *)
Definition dailyWithoutEnd : TaskData.t :=
  TaskData.mk "  물 마시기 " None 1 jan15 None None (Some true)
              (Some "daily"%string) None None None None None.

Definition noCompletionData : CompletionData.t := CompletionData.mk None None.

(** Coin transactions: an accepted reward, and a purchase that would
    overdraw the wallet. *)
Definition reward : CoinTransaction.t :=
  CoinTransaction.mk 1 1 1 6 CoinTransaction.earned_task_completion
                     "Task 완료 보상" CoinTransaction.defaultStatus.
Definition overdraft : CoinTransaction.t :=
  CoinTransaction.mk 2 1 (-10) (-4) CoinTransaction.spent_item_purchase
                     "아이템 구매" CoinTransaction.pending.

(** A week with two days tied at 120 minutes. *)
Definition week : list AnalysisService.DayBucket :=
  [ AnalysisService.mkBucket "2025-01-13" 30 1;
    AnalysisService.mkBucket "2025-01-14" 120 4;
    AnalysisService.mkBucket "2025-01-15" 45 2;
    AnalysisService.mkBucket "2025-01-16" 120 5;
    AnalysisService.mkBucket "2025-01-17" 0 0;
    AnalysisService.mkBucket "2025-01-18" 60 2;
    AnalysisService.mkBucket "2025-01-19" 10 1 ].

(** A pending purchase that the wallet can pay. *)
Definition pendingPurchase : CoinTransaction.t :=
  CoinTransaction.mk 3 1 (-2) 4 CoinTransaction.spent_item_purchase
                     "아이템 구매" CoinTransaction.pending.

(** A pending purchase whose description has 195 characters. *)
Definition longPurchase : CoinTransaction.t :=
  CoinTransaction.mk 8 1 (-2) 4 CoinTransaction.spent_item_purchase
    "item item item item item item item item item item item item item item item item item item item item item item item item item item item item item item item item item item item item item item item "
    CoinTransaction.pending.

(** The coin transactions of two users with their creation times: user 1
    earned 1 and 3 and spent 2 in the last days, has one pending purchase
    and one old reward; user 2 earned 5. *)
Definition history : list CoinTransaction.Stored :=
  [ CoinTransaction.mkStored reward jan15;
    CoinTransaction.mkStored
      (CoinTransaction.mk 4 1 3 9 CoinTransaction.earned_pomodoro_completion
                          "포모도로 보상" CoinTransaction.completed) jan15;
    CoinTransaction.mkStored
      (CoinTransaction.mk 5 1 (-2) 7 CoinTransaction.spent_item_purchase
                          "아이템 구매" CoinTransaction.completed) jan16;
    CoinTransaction.mkStored pendingPurchase jan16;
    CoinTransaction.mkStored
      (CoinTransaction.mk 6 1 1 1 CoinTransaction.earned_daily_login
                          "로그인 보상" CoinTransaction.completed)
      (jan15 - 60 * msPerDay);
    CoinTransaction.mkStored
      (CoinTransaction.mk 7 2 5 5 CoinTransaction.earned_special_event
                          "이벤트 보상" CoinTransaction.completed) jan15 ].

(** The data of an uploaded image. *)
Definition upload : AlbumData.t :=
  AlbumData.mk "/uploads/a.jpg" "/uploads/a_thumb.jpg" None None
               (Some "첫 기록"%string) (Some 2048) None.

(** A Task schema that refuses documents flagged as having an album. *)
Definition rejectFlagged (t : Task.t) : option Error :=
  if Task.hasGrowthAlbum t then Some (mkError "Task validation failed" None)
  else None.

(** A request for a task that does not repeat but carries recurrence data,
    and a request in the name of a category of nobody. *)
Definition plainWithRecurrence : TaskData.t :=
  TaskData.mk "운동" None 1 jan15 None None None
              (Some "weekly"%string) (Some [1; 3]) (Some jan16) None None None.
Definition unknownCategory : TaskData.t :=
  TaskData.mk "운동" None 9 jan15 None None None None None None None None None.


(** The database after user 1 was rewarded at 10:00. *)
Definition rewardedUser : User.t := credited premiumUser at1000'.
Definition rewardedDay : World :=
  set_users <[1%nat := rewardedUser]> allDone.

(** Three gate calls: user 1, user 2, and user 1 again five minutes later. *)
Definition threeCalls : list (nat * Z * Z) :=
  [ (1%nat, at1000, at1000'); (2%nat, at1000, at1000');
    (1%nat, at1005, at1005') ].

(** A monthly query that returns the tasks of the user, and the formatted
    date of the two days of the example. *)
Definition tasksOfUser (userId : nat) (year month : Z) (l : list Task.t)
  : list Task.t :=
  List.filter (fun t => (Task.userId t =? userId)%nat) l.
Definition dayKey (t : Task.t) : string :=
  if Task.date t =? jan15 then "2025-01-15" else "2025-01-16".

(** Statistics of a beginner and of a regular user. *)
Definition beginner : AiService.Stats := AiService.mkStats 6 (45 # 1) 3.
Definition regular : AiService.Stats := AiService.mkStats 32 (85 # 1) 15.

(** A week in which nothing was recorded. *)
Definition idleWeek : list AnalysisService.DayBucket :=
  [ AnalysisService.mkBucket "2025-01-13" 0 0;
    AnalysisService.mkBucket "2025-01-14" 0 0;
    AnalysisService.mkBucket "2025-01-15" 0 0 ].

End Examples.

(** * Properties *)

(** ** The coin ledger *)

Section CoinLedger.

Import CoinTransaction.

Lemma preSave_accepts (d : CoinTransaction.t) :
  preSave d = None ↔ wellFormed d.
Proof.
  unfold preSave, wellFormed.
  destruct (Z.ltb_spec (balanceAfter d) 0), (Z.eqb_spec (amount d) 0);
    split; intros; try discriminate; try reflexivity; lia.
Qed.

(** A save goes through when no validator fails and the middleware calls
    [next()]. *)
Lemma saveError_None (d : CoinTransaction.t) :
  saveError d = None ↔ validate d = [] ∧ preSave d = None.
Proof.
  unfold saveError. destruct (validate d) as [|p paths].
  - split; [now intros H | now intros [_ H]].
  - split; [discriminate | now intros [H _]].
Qed.

Lemma saveError_accepts (d : CoinTransaction.t) :
  saveError d = None → wellFormed d.
Proof. intros [_ H]%saveError_None. now apply preSave_accepts. Qed.

(** The validator of [min: 0] comes before the middleware: a negative
    balance-after is a validation error on [balanceAfter]. *)
Lemma negative_balance_fails_validation (d : CoinTransaction.t) :
  balanceAfter d < 0 →
  ∃ paths, saveError d = Some (ValidationError ("balanceAfter"%string :: paths)).
Proof.
  intros Hneg. unfold saveError, validate, minBalanceAfter.
  destruct (Z.leb_spec 0 (balanceAfter d)); [lia|]. simpl. eauto.
Qed.

Lemma save_rejected (d : CoinTransaction.t) (store : gmap nat CoinTransaction.t) e :
  saveError d = Some e →
  save (mkCtx d store) = (Throw e, mkCtx d store).
Proof. intros H. unfold save, bind, gets, throw. simpl. now rewrite H. Qed.

Lemma save_accepted (d : CoinTransaction.t) (store : gmap nat CoinTransaction.t) :
  saveError d = None →
  save (mkCtx d store) = (Ok tt, mkCtx d (<[_id d := d]> store)).
Proof. intros H. unfold save, bind, gets, modify. simpl. now rewrite H. Qed.

(** Whatever [save] does to the collection, it writes at most the
    document it was called on, and only when nothing stops the save. *)
Lemma save_db (d : CoinTransaction.t) (store : gmap nat CoinTransaction.t) :
  db (snd (save (mkCtx d store))) =
    if decide (saveError d = None) then <[_id d := d]> store else store.
Proof.
  case_decide as H.
  - now rewrite (save_accepted _ _ H).
  - destruct (saveError d) as [e|] eqn:E; [|congruence].
    now rewrite (save_rejected _ _ _ E).
Qed.

Lemma save_preserves (d : CoinTransaction.t) (store : gmap nat CoinTransaction.t) :
  map_Forall (fun _ => wellFormed) store →
  map_Forall (fun _ => wellFormed) (db (snd (save (mkCtx d store)))).
Proof.
  intros Hs. rewrite save_db. case_decide as H; [|exact Hs].
  apply map_Forall_insert_2; [now apply saveError_accepts | exact Hs].
Qed.

Lemma cancel_unfold (d : CoinTransaction.t) reason (store : gmap nat CoinTransaction.t) :
  cancel reason (mkCtx d store) =
    if negb (Status_eqb (status d) pending)
    then (Throw cannotCancel, mkCtx d store)
    else save (mkCtx (set_description
                        (trim (description d ++ " (취소됨: " ++ reason ++ ")")%string)
                        (set_status cancelled d)) store).
Proof.
  unfold cancel, bind, gets, onThis, modify, throw. simpl.
  destruct (negb (Status_eqb (status d) pending)); reflexivity.
Qed.

Lemma complete_unfold (d : CoinTransaction.t) (store : gmap nat CoinTransaction.t) :
  complete (mkCtx d store) =
    if negb (Status_eqb (status d) pending)
    then (Throw alreadyProcessed, mkCtx d store)
    else save (mkCtx (set_status completed d) store).
Proof.
  unfold complete, bind, gets, onThis, modify, throw. simpl.
  destruct (negb (Status_eqb (status d) pending)); reflexivity.
Qed.

Lemma step_preserves (o : Op) (store : gmap nat CoinTransaction.t) :
  map_Forall (fun _ => wellFormed) store →
  map_Forall (fun _ => wellFormed) (step o store).
Proof.
  intros Hs. destruct o as [d|d reason|d]; simpl.
  - now apply save_preserves.
  - rewrite cancel_unfold.
    destruct (negb _); [exact Hs | now apply save_preserves].
  - rewrite complete_unfold.
    destruct (negb _); [exact Hs | now apply save_preserves].
Qed.

Lemma run_preserves (ops : list Op) (store : gmap nat CoinTransaction.t) :
  map_Forall (fun _ => wellFormed) store →
  map_Forall (fun _ => wellFormed) (run ops store).
Proof.
  revert store. induction ops as [|o ops IH]; intros store Hs; simpl.
  - exact Hs.
  - apply IH, step_preserves, Hs.
Qed.

Lemma Status_eqb_pending (s : Status) :
  Status_eqb s pending = true ↔ s = pending.
Proof. destruct s; simpl; split; intros; congruence. Qed.

End CoinLedger.

Section CoinLedgerClaims.

Import CoinTransaction.

(** C6, as amended.  The recorded coin balance is never negative: every
    transaction in a collection that was built up from the empty one by
    saving, cancelling and completing documents has a balance-after of at
    least 0 and a non-zero amount; and saving a document whose
    balance-after is negative fails with an error and records nothing. *)
Theorem coin_balance_never_negative
    (ops : list Op) (d : CoinTransaction.t) :
  let store := run ops ∅ in
  map_Forall (fun _ x => 0 ≤ balanceAfter x ∧ amount x ≠ 0) store
  ∧ (balanceAfter d < 0 →
     (∃ e, save (mkCtx d store) = (Throw e, mkCtx d store))
     ∧ run (ops ++ [OpSave d]) ∅ = store).
Proof.
  intros store. split.
  - apply (run_preserves ops ∅), map_Forall_empty.
  - intros Hneg.
    destruct (negative_balance_fails_validation d Hneg) as [paths Herr].
    split; [eexists; apply (save_rejected _ _ _ Herr)|].
    unfold run. rewrite foldl_app. simpl. fold (run ops ∅). fold store.
    now rewrite (save_rejected _ _ _ Herr).
Qed.

(** C7.  A coin transaction whose status is not [pending] cannot be
    changed after it was created: [cancel] and [complete] both throw, and
    neither the document in memory nor the collection is modified.  The
    default status, [completed], is such a status. *)
Theorem settled_transaction_is_immutable
    (d : CoinTransaction.t) (reason : string)
    (store : gmap nat CoinTransaction.t) :
  status d ≠ pending →
  cancel reason (mkCtx d store) = (Throw cannotCancel, mkCtx d store)
  ∧ complete (mkCtx d store) = (Throw alreadyProcessed, mkCtx d store)
  ∧ defaultStatus ≠ pending.
Proof.
  intros Hs.
  assert (E : negb (Status_eqb (status d) pending) = true).
  { destruct (Status_eqb (status d) pending) eqn:E; [|reflexivity].
    now apply Status_eqb_pending in E. }
  rewrite cancel_unfold, complete_unfold, E.
  repeat split. discriminate.
Qed.

End CoinLedgerClaims.

(** ** The daily task-completion reward *)

Section DailyCompletionGate.

Import TaskService.

Variable tzOffset : Z.

Lemma check_unfold (userId : nat) (today now : Z) (w : World) :
  checkDailyTaskCompletion tzOffset userId today now w =
    match users w !! userId with
    | None => (Ok None, w)
    | Some user =>
      if mints user (todayTasks tzOffset userId today w) today
      then (Ok (Some (mkCoinReward true 1 (User.coins user + 1) rewardMessage)),
            set_users <[userId := credited user now]> w)
      else (Ok None, w)
    end.
Proof.
  unfold checkDailyTaskCompletion, mints, bind, User_findById,
    Task_findByDate, User_save, gets, modify, ret, todayTasks. simpl.
  destruct (users w !! userId) as [[premium coins rewards]|]; [|reflexivity].
  unfold credited. simpl.
  destruct premium; simpl; [|reflexivity].
  destruct (length _ =? 0)%nat; simpl; [reflexivity|].
  destruct (forallb _ _); simpl; [|reflexivity].
  destruct (alreadyRewarded _ today); reflexivity.
Qed.

(** Every branch but the minting one returns [null] and writes nothing. *)
Lemma check_blocked (userId : nat) (today now : Z) (w : World) :
  (∀ user, users w !! userId = Some user →
           mints user (todayTasks tzOffset userId today w) today = false) →
  checkDailyTaskCompletion tzOffset userId today now w = (Ok None, w).
Proof.
  intros H. rewrite check_unfold.
  destruct (users w !! userId) as [user|]; [|reflexivity].
  now rewrite (H user eq_refl).
Qed.

Lemma already_rewarded_blocks (userId : nat) (today now : Z) (w : World) user :
  users w !! userId = Some user →
  alreadyRewarded user today = true →
  checkDailyTaskCompletion tzOffset userId today now w = (Ok None, w).
Proof.
  intros Hu Ha. apply check_blocked. intros u' Hu'.
  assert (u' = user) as -> by congruence.
  unfold mints. rewrite Ha. simpl. now rewrite !andb_false_r.
Qed.

Lemma credited_rewarded (user : User.t) (now today : Z) :
  isoDate today = isoDate now →
  alreadyRewarded (credited user now) today = true.
Proof.
  intros Hd. unfold alreadyRewarded, credited. simpl.
  rewrite existsb_app. simpl. rewrite Hd, Z.eqb_refl. simpl.
  now rewrite !orb_true_r.
Qed.

Lemma todayTasks_set_users f (userId : nat) (today : Z) (w : World) :
  todayTasks tzOffset userId today (set_users f w)
  = todayTasks tzOffset userId today w.
Proof. reflexivity. Qed.

Lemma incomplete_not_all (due : list Task.t) (t : Task.t) :
  t ∈ due → Task.isCompleted t = false →
  forallb Task.isCompleted due = false.
Proof.
  intros Hin Ht. induction Hin as [t l|t x l _ IH]; simpl.
  - now rewrite Ht.
  - rewrite (IH Ht). apply andb_false_r.
Qed.

End DailyCompletionGate.

Section DailyCompletionGateClaims.

Import TaskService.

Variable tzOffset : Z.

(** On one UTC date the reward is minted once.  For a premium user whose
    due tasks of the day are all completed and who has no task-completion
    reward recorded for the UTC date of [today], the first invocation
    appends one [task_completion] entry of 1 coin, adds 1 to the balance
    and returns the new balance; a second invocation on the UTC date of
    that entry returns [null] and leaves the ledger and the balance as the
    first one left them. *)
Theorem daily_reward_minted_once
    (userId : nat) (user : User.t) (w : World)
    (today now today' now' : Z) :
  users w !! userId = Some user →
  User.isPremium user = true →
  todayTasks tzOffset userId today w ≠ [] →
  forallb Task.isCompleted (todayTasks tzOffset userId today w) = true →
  alreadyRewarded user today = false →
  isoDate today' = isoDate now →
  let entry := User.mkReward "task_completion" 1 now in
  let user' := User.mk true (User.coins user + 1)
                       (User.dailyRewards user ++ [entry]) in
  let w' := set_users <[userId := user']> w in
  checkDailyTaskCompletion tzOffset userId today now w
    = (Ok (Some (mkCoinReward true 1 (User.coins user + 1) rewardMessage)), w')
  ∧ checkDailyTaskCompletion tzOffset userId today' now' w' = (Ok None, w')
  ∧ users w' !! userId = Some user'.
Proof.
  intros Hu Hp Hne Hall Hnot Hday entry user' w'.
  assert (Hc : credited user now = user').
  { unfold credited, user', entry. now rewrite Hp. }
  assert (Hl : users w' !! userId = Some user').
  { unfold w'. simpl. apply lookup_insert_eq. }
  split; [|split; [|exact Hl]].
  - rewrite check_unfold, Hu. unfold mints.
    rewrite Hp, Hall, Hnot, Hc. simpl.
    destruct (todayTasks tzOffset userId today w); [congruence|reflexivity].
  - apply (already_rewarded_blocks _ _ _ _ _ user' Hl).
    rewrite <- Hc. now apply credited_rewarded.
Qed.

(** C2.  One incomplete task among those due on the day blocks the gate:
    the call returns [null], no reward is recorded and the balance is
    unchanged.  (Hence a reward is returned only when every due task is
    completed.) *)
Theorem incomplete_task_blocks_reward
    (userId : nat) (w : World) (today now : Z) (t : Task.t) :
  t ∈ todayTasks tzOffset userId today w →
  Task.isCompleted t = false →
  checkDailyTaskCompletion tzOffset userId today now w = (Ok None, w)
  ∧ ∀ r w', checkDailyTaskCompletion tzOffset userId today now w
              ≠ (Ok (Some r), w').
Proof.
  intros Hin Ht.
  assert (H : checkDailyTaskCompletion tzOffset userId today now w
              = (Ok None, w)).
  { apply check_blocked. intros user _. unfold mints.
    rewrite (incomplete_not_all _ _ Hin Ht). simpl.
    now rewrite andb_false_r. }
  split; [exact H|]. intros r w'. rewrite H. congruence.
Qed.

(** C3.  A day without due tasks is not a completed day: the call returns
    [null] without throwing, records no reward and leaves the balance
    unchanged. *)
Theorem empty_day_gives_no_reward
    (userId : nat) (w : World) (today now : Z) :
  todayTasks tzOffset userId today w = [] →
  checkDailyTaskCompletion tzOffset userId today now w = (Ok None, w).
Proof.
  intros He. apply check_blocked. intros user _. unfold mints.
  rewrite He. simpl. now rewrite andb_false_r.
Qed.

(** C5, as amended.  For a user id that resolves to no user, the gate
    throws nothing: it returns [null] and changes nothing. *)
Theorem unknown_user_gives_null
    (userId : nat) (w : World) (today now : Z) :
  users w !! userId = None →
  checkDailyTaskCompletion tzOffset userId today now w = (Ok None, w).
Proof.
  intros Hu. apply check_blocked. intros user Hu'. congruence.
Qed.

(** C9.  A user who does not exist or who is not premium gets [null] and
    nothing is written, whatever the state of the day's tasks. *)
Theorem free_user_gets_no_reward
    (userId : nat) (w : World) (today now : Z) :
  (users w !! userId = None
   ∨ ∃ user, users w !! userId = Some user ∧ User.isPremium user = false) →
  checkDailyTaskCompletion tzOffset userId today now w = (Ok None, w).
Proof.
  intros H. apply check_blocked. intros user Hu.
  destruct H as [H|[u [H Hp]]]; [congruence|].
  assert (u = user) as -> by congruence.
  unfold mints. now rewrite Hp.
Qed.

End DailyCompletionGateClaims.

(** ** Creating and completing tasks *)

Section TaskLifecycle.

Import TaskService.

Variable Task_validate : Task.t → option Error.
Variable Task_createRepeatingTasks : Task.t → list Task.t.
Variable Task_complete : option Z → Task.t → Task.t.
Variable Category_updateStats : Category.t → list Task.t → Category.t.

Lemma upsert_elem (t : Task.t) (l : list Task.t) : t ∈ upsert t l.
Proof.
  induction l as [|x l IH]; simpl.
  - apply list_elem_of_here.
  - destruct (Task._id x =? Task._id t)%nat.
    + apply list_elem_of_here.
    + now apply list_elem_of_further.
Qed.

(** C4, as amended.  A repeating task without an end date is not
    rejected: when its category resolves and the Task schema accepts the
    document, [createTask] stores it as one task whose [repeatEndDate] is
    [null] and generates no further instances. *)
Theorem repeating_task_without_end_date_is_stored
    (oid userId : nat) (taskData : TaskData.t) (w : World)
    (category : Category.t) :
  TaskData.isRepeating taskData = Some true →
  TaskData.repeatEndDate taskData = None →
  Category_findOne (TaskData.categoryId taskData) userId w
    = (Ok (Some category), w) →
  Task_validate (newTask oid userId taskData category) = None →
  let task := newTask oid userId taskData category in
  ∃ w',
    createTask Task_validate Task_createRepeatingTasks Category_updateStats
               oid userId taskData w = (Ok task, w')
    ∧ Task.isRepeating task = true
    ∧ Task.repeatEndDate task = None
    ∧ tasks w' = upsert task (tasks w)
    ∧ task ∈ tasks w'.
Proof.
  intros Hrep Hend Hcat Hval task.
  unfold createTask, bind, Task_save. rewrite Hcat. cbv zeta.
  rewrite Hval, Hrep, Hend. simpl.
  eexists. split; [reflexivity|]. simpl.
  split; [|split; [|split; [reflexivity | apply upsert_elem]]].
  - unfold task, newTask. now rewrite Hrep.
  - unfold task, newTask. now rewrite Hrep, Hend.
Qed.

(** C10.  [completeTask] on a task that is already completed throws the
    "already completed" error before the completion step: the task, the
    growth albums and the rest of the database are unchanged.  It returns
    only for a task whose completion flag was unset. *)
Theorem completed_task_is_not_completed_again
    (userId taskId : nat) (completionData : CompletionData.t)
    (w : World) (task : Task.t) :
  Task_findOne taskId userId w = (Ok (Some task), w) →
  (Task.isCompleted task = true →
   completeTask Task_validate Task_complete userId taskId completionData w
     = (Throw alreadyCompleted, w))
  ∧ (∀ r w',
       completeTask Task_validate Task_complete userId taskId completionData w
         = (Ok r, w') →
       Task.isCompleted task = false).
Proof.
  intros Hfind. unfold completeTask, bind. rewrite Hfind.
  destruct (Task.isCompleted task); split.
  - reflexivity.
  - intros r w'. unfold throw. discriminate.
  - discriminate.
  - reflexivity.
Qed.

End TaskLifecycle.

(** ** The best day of a week *)

Section BestDay.

Import AnalysisService.

Lemma earliestMax_snoc_keep (l : list DayBucket) i b x :
  earliestMax l i b → minutes x ≤ minutes b →
  earliestMax (l ++ [x]) i b.
Proof.
  intros (Hi & Hmax & Hbefore) Hx. repeat split.
  - rewrite lookup_app_l; [exact Hi|]. now apply lookup_lt_Some in Hi.
  - intros y [Hy|Hy%list_elem_of_singleton]%elem_of_app;
      [now apply Hmax | now subst].
  - intros j y Hj Hy. apply (Hbefore j y Hj).
    rewrite lookup_app_l in Hy; [exact Hy|].
    apply lookup_lt_Some in Hi. lia.
Qed.

Lemma earliestMax_snoc_replace (l : list DayBucket) i b x :
  earliestMax l i b → minutes b < minutes x →
  earliestMax (l ++ [x]) (length l) x.
Proof.
  intros (Hi & Hmax & Hbefore) Hx. repeat split.
  - rewrite lookup_app_r by lia. now rewrite Nat.sub_diag.
  - intros y [Hy|Hy%list_elem_of_singleton]%elem_of_app.
    + specialize (Hmax y Hy). lia.
    + subst. lia.
  - intros j y Hj Hy. rewrite lookup_app_l in Hy by exact Hj.
    assert (y ∈ l) as Hin by (apply list_elem_of_lookup; eauto).
    specialize (Hmax y Hin). lia.
Qed.

Lemma foldl_better (l pre : list DayBucket) (i : nat) (b : DayBucket) :
  earliestMax pre i b →
  ∃ i', earliestMax (pre ++ l) i' (foldl better b l).
Proof.
  revert pre i b. induction l as [|x l IH]; intros pre i b Hb; simpl.
  - exists i. now rewrite app_nil_r.
  - replace (pre ++ x :: l) with ((pre ++ [x]) ++ l)
      by now rewrite <- app_assoc.
    unfold better at 2. rewrite Z.gtb_ltb.
    destruct (Z.ltb_spec (minutes b) (minutes x)) as [Hlt|Hge].
    + apply (IH _ (length pre)).
      now apply (earliestMax_snoc_replace pre i b).
    + apply (IH _ i). now apply earliestMax_snoc_keep.
Qed.

(** C8.  On a non-empty sequence of daily buckets, the best day is a
    bucket of the sequence with the largest number of focus minutes, and
    every bucket before it has strictly fewer minutes: among tied maxima
    the earliest one is reported. *)
Theorem best_day_is_earliest_maximum (weeklyData : list DayBucket) :
  weeklyData ≠ [] →
  ∃ (i : nat) (b : DayBucket),
    bestDay weeklyData = Some b
    ∧ weeklyData !! i = Some b
    ∧ (∀ x, x ∈ weeklyData → minutes x ≤ minutes b)
    ∧ (∀ j y, (j < i)%nat → weeklyData !! j = Some y →
              minutes y < minutes b).
Proof.
  destruct weeklyData as [|first rest]; [congruence|]. intros _.
  assert (H0 : earliestMax [first] 0 first).
  { repeat split.
    - intros x Hx%list_elem_of_singleton. subst. lia.
    - intros j y Hj. lia. }
  destruct (foldl_better rest [first] 0 first H0) as [i Hi].
  exists i, (foldl better first rest). split; [|exact Hi].
  unfold bestDay. simpl. f_equal.
  unfold better at 2. now rewrite Z.gtb_ltb, Z.ltb_irrefl.
Qed.

End BestDay.

(** * The service on the example data *)

Section Runs.

Import TaskService Examples.

Example gate_mints_on_completed_day :
  checkDailyTaskCompletion seoul 1 at1000 at1000' allDone
  = (Ok (Some (mkCoinReward true 1 6 rewardMessage)),
     set_users <[1%nat := User.mk true 6
                   [User.mkReward "task_completion" 1 at1000']]> allDone).
Proof. vm_compute. reflexivity. Qed.

(** The day of a reward is the UTC date of its time stamp, while the tasks
    of a day are selected in local time.  The readings 08:30 and 09:30 of
    one Seoul morning see the same due tasks but lie on two UTC dates. *)
Example utc_date_changes_during_local_day :
  todayTasks seoul 1 at0830 allDone = todayTasks seoul 1 at0930 allDone
  ∧ isoDate at0830 ≠ isoDate at0930
  ∧ alreadyRewarded (credited premiumUser at0830) at0930 = false.
Proof. vm_compute. repeat split. discriminate. Qed.

Example week_best_day :
  AnalysisService.bestDay week
  = Some (AnalysisService.mkBucket "2025-01-14" 120 4).
Proof. reflexivity. Qed.

Example trim_title : trim "  물 마시기 " = "물 마시기"%string.
Proof. reflexivity. Qed.

(** White space outside ASCII is trimmed as well: U+3000 in front, U+00A0
    and U+2028 (the bytes 226, 128, 168) behind. *)
Example trim_unicode :
  trim ("　 물 마시기 "
        ++ String.String "226" (String.String "128" (String.String "168" "")))
  = "물 마시기"%string.
Proof. reflexivity. Qed.

(** Lengths are counted in UTF-16 code units. *)
Example jsLength_units :
  jsLength "아이템 구매" = 6%nat ∧ jsLength "🎉" = 2%nat
  ∧ jsLength (CoinTransaction.description longPurchase) = 195%nat.
Proof. repeat split. Qed.

End Runs.

(** * The claims on the example data *)

Section Instances.

Import TaskService Examples.

(** C1.  The gate does not keep the daily reward to one per calendar
    day.  The server runs in Seoul; all tasks of user 1 due on 2025-01-15
    are completed and no reward is recorded.  The gate is invoked at 08:30
    and again at 09:30 of that day: both invocations see the same due
    tasks, both mint, and the user ends with two [task_completion] entries
    and a balance raised by 2.  (The due tasks are those of the local day,
    but the recorded reward is looked up by its UTC date, which changes at
    09:00 in Seoul.) *)
Theorem same_local_day_mints_twice :
  let w1 := snd (checkDailyTaskCompletion seoul 1 at0830 at0830' allDone) in
  let w2 := snd (checkDailyTaskCompletion seoul 1 at0930 at0930' w1) in
  startOfDay seoul at0830 = startOfDay seoul at0930
  ∧ todayTasks seoul 1 at0830 allDone = todayTasks seoul 1 at0930 w1
  ∧ fst (checkDailyTaskCompletion seoul 1 at0830 at0830' allDone)
    = Ok (Some (mkCoinReward true 1 6 rewardMessage))
  ∧ fst (checkDailyTaskCompletion seoul 1 at0930 at0930' w1)
    = Ok (Some (mkCoinReward true 1 7 rewardMessage))
  ∧ users w2 !! 1%nat
    = Some (User.mk true 7
              [User.mkReward "task_completion" 1 at0830';
               User.mkReward "task_completion" 1 at0930']).
Proof. vm_compute. repeat split. Qed.

(** Two calls on 2025-01-15 for user 1, all of whose tasks are done, both
    after 09:00. *)
Lemma daily_reward_minted_once_witness :
  let user' := User.mk true (5 + 1)
                 ([] ++ [User.mkReward "task_completion" 1 at1000']) in
  let w' := set_users <[1%nat := user']> allDone in
  checkDailyTaskCompletion seoul 1 at1000 at1000' allDone
    = (Ok (Some (mkCoinReward true 1 (5 + 1) rewardMessage)), w')
  ∧ checkDailyTaskCompletion seoul 1 at1005 at1005' w' = (Ok None, w')
  ∧ users w' !! 1%nat = Some user'.
Proof.
  apply (daily_reward_minted_once seoul 1 premiumUser allDone
           at1000 at1000' at1005 at1005').
  - vm_compute. reflexivity.
  - reflexivity.
  - vm_compute. discriminate.
  - vm_compute. reflexivity.
  - reflexivity.
  - vm_compute. reflexivity.
Defined.

(** Task 12 is the open one among the five. *)
Lemma incomplete_task_blocks_reward_witness :
  checkDailyTaskCompletion seoul 1 at1000 at1000' oneOpen = (Ok None, oneOpen)
  ∧ ∀ r w', checkDailyTaskCompletion seoul 1 at1000 at1000' oneOpen
              ≠ (Ok (Some r), w').
Proof.
  apply (incomplete_task_blocks_reward seoul 1 oneOpen at1000 at1000'
           (task 12 1 jan15 false)).
  - vm_compute. apply list_elem_of_further, list_elem_of_further,
      list_elem_of_here.
  - reflexivity.
Defined.

Lemma empty_day_gives_no_reward_witness :
  checkDailyTaskCompletion seoul 1 at1000 at1000' nothingDue
  = (Ok None, nothingDue).
Proof.
  apply (empty_day_gives_no_reward seoul 1 nothingDue at1000 at1000').
  vm_compute. reflexivity.
Defined.

(** C5 as stated fails: user 99 does not exist, and the gate returns
    [null] instead of throwing. *)
Lemma unknown_user_is_not_an_error :
  users allDone !! 99%nat = None
  ∧ isThrow (fst (checkDailyTaskCompletion seoul 99 at1000 at1000' allDone))
    = false
  ∧ checkDailyTaskCompletion seoul 99 at1000 at1000' allDone
    = (Ok None, allDone).
Proof. vm_compute. repeat split. Qed.

Lemma unknown_user_gives_null_witness :
  checkDailyTaskCompletion seoul 99 at1000 at1000' allDone
  = (Ok None, allDone).
Proof.
  apply (unknown_user_gives_null seoul 99 allDone at1000 at1000').
  vm_compute. reflexivity.
Defined.

(** User 2 is a free user whose only task of the day is completed. *)
Lemma free_user_gets_no_reward_witness :
  checkDailyTaskCompletion seoul 2 at1000 at1000' allDone
  = (Ok None, allDone).
Proof.
  apply (free_user_gets_no_reward seoul 2 allDone at1000 at1000').
  right. exists freeUser. split; [vm_compute|]; reflexivity.
Defined.

(** C4 as stated fails: a daily task without an end date is created, and
    stored, without any error. *)
Lemma repeating_task_without_end_date_is_accepted :
  TaskData.isRepeating dailyWithoutEnd = Some true
  ∧ TaskData.repeatType dailyWithoutEnd = Some "daily"%string
  ∧ TaskData.repeatEndDate dailyWithoutEnd = None
  ∧ isThrow (fst (createTask acceptAll noInstances countTasks
                             20 1 dailyWithoutEnd allDone)) = false
  ∧ length (tasks (snd (createTask acceptAll noInstances countTasks
                                   20 1 dailyWithoutEnd allDone)))
    = S (length (tasks allDone)).
Proof. vm_compute. repeat split. Qed.

Lemma repeating_task_without_end_date_is_stored_witness :
  let task := newTask 20 1 dailyWithoutEnd (Category.mk 1 1 "#FF6B6B" 0 0) in
  ∃ w',
    createTask acceptAll noInstances countTasks 20 1 dailyWithoutEnd allDone
      = (Ok task, w')
    ∧ Task.isRepeating task = true
    ∧ Task.repeatEndDate task = None
    ∧ tasks w' = upsert task (tasks allDone)
    ∧ task ∈ tasks w'.
Proof.
  apply (repeating_task_without_end_date_is_stored
           acceptAll noInstances countTasks 20 1 dailyWithoutEnd allDone
           (Category.mk 1 1 "#FF6B6B" 0 0)).
  - reflexivity.
  - reflexivity.
  - vm_compute. reflexivity.
  - reflexivity.
Defined.

(** Task 10 of user 1 is already completed. *)
Lemma completed_task_is_not_completed_again_witness :
  completeTask acceptAll markCompleted 1 10 noCompletionData allDone
  = (Throw alreadyCompleted, allDone).
Proof.
  apply (completed_task_is_not_completed_again acceptAll markCompleted
           1 10 noCompletionData allDone (task 10 1 jan15 true)).
  - vm_compute. reflexivity.
  - reflexivity.
Defined.

(** The purchase that would leave a balance of -4 is refused. *)
Lemma coin_balance_never_negative_witness :
  let store := CoinTransaction.run [CoinTransaction.OpSave reward] ∅ in
  (∃ e, CoinTransaction.save (CoinTransaction.mkCtx overdraft store)
        = (Throw e, CoinTransaction.mkCtx overdraft store))
  ∧ CoinTransaction.run
      ([CoinTransaction.OpSave reward] ++ [CoinTransaction.OpSave overdraft]) ∅
    = store.
Proof.
  apply (coin_balance_never_negative [CoinTransaction.OpSave reward] overdraft).
  vm_compute. reflexivity.
Defined.

(** C6 as stated fails: the error of that refusal is the validation error
    on [balanceAfter], not the middleware's INSUFFICIENT_BALANCE error. *)
Lemma negative_balance_is_a_validation_error :
  CoinTransaction.balanceAfter overdraft < 0
  ∧ CoinTransaction.save (CoinTransaction.mkCtx overdraft ∅)
    = (Throw (ValidationError ["balanceAfter"%string]),
       CoinTransaction.mkCtx overdraft ∅)
  ∧ CoinTransaction.save (CoinTransaction.mkCtx overdraft ∅)
    ≠ (Throw CoinTransaction.insufficientBalance,
       CoinTransaction.mkCtx overdraft ∅).
Proof.
  split; [vm_compute; reflexivity|].
  assert (E : CoinTransaction.save (CoinTransaction.mkCtx overdraft ∅)
              = (Throw (ValidationError ["balanceAfter"%string]),
                 CoinTransaction.mkCtx overdraft ∅))
    by (vm_compute; reflexivity).
  split; [exact E|]. rewrite E. discriminate.
Qed.

(** The reward was created with the default status. *)
Lemma settled_transaction_is_immutable_witness :
  CoinTransaction.cancel "실수" (CoinTransaction.mkCtx reward ∅)
  = (Throw CoinTransaction.cannotCancel, CoinTransaction.mkCtx reward ∅)
  ∧ CoinTransaction.complete (CoinTransaction.mkCtx reward ∅)
    = (Throw CoinTransaction.alreadyProcessed, CoinTransaction.mkCtx reward ∅)
  ∧ CoinTransaction.defaultStatus ≠ CoinTransaction.pending.
Proof.
  apply (settled_transaction_is_immutable reward "실수" ∅).
  vm_compute. discriminate.
Defined.

Lemma best_day_is_earliest_maximum_witness :
  ∃ (i : nat) (b : AnalysisService.DayBucket),
    AnalysisService.bestDay week = Some b
    ∧ week !! i = Some b
    ∧ (∀ x, x ∈ week → AnalysisService.minutes x ≤ AnalysisService.minutes b)
    ∧ (∀ j y, (j < i)%nat → week !! j = Some y →
              AnalysisService.minutes y < AnalysisService.minutes b).
Proof.
  apply (best_day_is_earliest_maximum week). discriminate.
Defined.

End Instances.

(** * Further properties of the coin ledger *)

Section CoinLedgerMore.

Import CoinTransaction.

Lemma preSave_set_status (s : Status) (d : CoinTransaction.t) :
  preSave (set_status s d) = preSave d.
Proof. reflexivity. Qed.

Lemma preSave_set_description (s : string) (d : CoinTransaction.t) :
  preSave (set_description s d) = preSave d.
Proof. reflexivity. Qed.

Lemma throws_when_settled (d : CoinTransaction.t) (reason : string)
    (store : gmap nat CoinTransaction.t) :
  Status_eqb (status d) pending = false →
  cancel reason (mkCtx d store) = (Throw cannotCancel, mkCtx d store)
  ∧ complete (mkCtx d store) = (Throw alreadyProcessed, mkCtx d store).
Proof. intros E. now rewrite cancel_unfold, complete_unfold, E. Qed.

(** X1.  Every transaction of a collection built by saving, cancelling and
    completing documents is either earned or spent, never both and never
    neither, and its absolute amount is positive. *)
Theorem stored_transaction_is_earned_or_spent
    (ops : list Op) (k : nat) (d : CoinTransaction.t) :
  run ops ∅ !! k = Some d →
  isEarned d = negb (isSpent d)
  ∧ 0 < absoluteAmount d
  ∧ amount d = (if isEarned d then absoluteAmount d else - absoluteAmount d).
Proof.
  intros Hk.
  assert (Hw : wellFormed d).
  { apply (run_preserves ops ∅ (map_Forall_empty _) k d Hk). }
  destruct Hw as [_ Hnz]. unfold isEarned, isSpent, absoluteAmount.
  rewrite Z.gtb_ltb.
  destruct (Z.ltb_spec 0 (amount d)), (Z.ltb_spec (amount d) 0);
    simpl; repeat split; lia.
Qed.

(** X2.  Cancelling a pending transaction marks it cancelled and appends
    the reason to its description; when the validators and the middleware
    accept that document, it is stored, and from then on every [cancel]
    and [complete] on it throws and changes nothing. *)
Theorem cancel_pending_settles
    (d : CoinTransaction.t) (reason : string)
    (store : gmap nat CoinTransaction.t) :
  status d = pending →
  let d' := set_description
              (trim (description d ++ " (취소됨: " ++ reason ++ ")")%string)
              (set_status cancelled d) in
  saveError d' = None →
  let ctx' := mkCtx d' (<[_id d := d']> store) in
  cancel reason (mkCtx d store) = (Ok tt, ctx')
  ∧ status d' = cancelled
  ∧ amount d' = amount d ∧ balanceAfter d' = balanceAfter d
  ∧ (∀ again, cancel again ctx' = (Throw cannotCancel, ctx'))
  ∧ complete ctx' = (Throw alreadyProcessed, ctx').
Proof.
  intros Hs d' Hp ctx'.
  split; [|split; [reflexivity|split; [reflexivity|split; [reflexivity|]]]].
  - rewrite cancel_unfold, Hs. simpl. fold d'.
    now rewrite save_accepted.
  - assert (E : Status_eqb (status d') pending = false) by reflexivity.
    split; [intros again|].
    + apply (throws_when_settled d' again _ E).
    + apply (throws_when_settled d' reason _ E).
Qed.

(** X3.  Completing a pending transaction marks it completed; when the
    validators and the middleware accept that document, it is stored, and
    from then on every [cancel] and [complete] on it throws and changes
    nothing. *)
Theorem complete_pending_settles
    (d : CoinTransaction.t) (store : gmap nat CoinTransaction.t) :
  status d = pending →
  let d' := set_status completed d in
  saveError d' = None →
  let ctx' := mkCtx d' (<[_id d := d']> store) in
  complete (mkCtx d store) = (Ok tt, ctx')
  ∧ description d' = description d
  ∧ amount d' = amount d ∧ balanceAfter d' = balanceAfter d
  ∧ (∀ reason, cancel reason ctx' = (Throw cannotCancel, ctx'))
  ∧ complete ctx' = (Throw alreadyProcessed, ctx').
Proof.
  intros Hs d' Hp ctx'.
  split; [|split; [reflexivity|split; [reflexivity|split; [reflexivity|]]]].
  - rewrite complete_unfold, Hs. simpl. fold d'.
    now rewrite save_accepted.
  - assert (E : Status_eqb (status d') pending = false) by reflexivity.
    split; [intros reason|].
    + apply (throws_when_settled d' reason _ E).
    + apply (throws_when_settled d' "" _ E).
Qed.

(** X4.  When a validator or the middleware stops the save inside
    [cancel], the call throws that error and the collection is unchanged,
    but the document in memory is already marked cancelled: a second
    [cancel] on it throws the "cannot cancel" error although nothing was
    stored. *)
Theorem cancel_rejected_save_leaves_document_cancelled
    (d : CoinTransaction.t) (reason : string)
    (store : gmap nat CoinTransaction.t) (e : Error) :
  status d = pending →
  let d' := set_description
              (trim (description d ++ " (취소됨: " ++ reason ++ ")")%string)
              (set_status cancelled d) in
  saveError d' = Some e →
  cancel reason (mkCtx d store) = (Throw e, mkCtx d' store)
  ∧ status d' = cancelled
  ∧ (∀ again, cancel again (mkCtx d' store)
              = (Throw cannotCancel, mkCtx d' store)).
Proof.
  intros Hs d' Hp. split; [|split].
  - rewrite cancel_unfold, Hs. simpl. now apply save_rejected.
  - reflexivity.
  - intros again. now apply (throws_when_settled d' again).
Qed.

Lemma save_keeps (d : CoinTransaction.t) (store : gmap nat CoinTransaction.t) k :
  is_Some (store !! k) →
  is_Some (db (snd (save (mkCtx d store))) !! k).
Proof.
  intros Hk. rewrite save_db. case_decide; [|exact Hk].
  destruct (decide (_id d = k)) as [->|Hne].
  - rewrite lookup_insert_eq. eauto.
  - now rewrite lookup_insert_ne.
Qed.

Lemma step_keeps (o : Op) (store : gmap nat CoinTransaction.t) k :
  is_Some (store !! k) → is_Some (step o store !! k).
Proof.
  intros Hk. destruct o as [d|d reason|d]; simpl.
  - now apply save_keeps.
  - rewrite cancel_unfold. destruct (negb _); [exact Hk | now apply save_keeps].
  - rewrite complete_unfold. destruct (negb _); [exact Hk | now apply save_keeps].
Qed.

(** X5.  No operation of the model removes a transaction: an [_id] that is
    in the collection stays in it under every sequence of saves, cancels
    and completes. *)
Theorem ledger_never_loses_a_transaction
    (ops : list Op) (store : gmap nat CoinTransaction.t) (k : nat) :
  is_Some (store !! k) → is_Some (run ops store !! k).
Proof.
  revert store. induction ops as [|o ops IH]; intros store Hk; simpl.
  - exact Hk.
  - apply IH, step_keeps, Hk.
Qed.

Lemma sumZ_net (l : list Stored) :
  sumZ (map (fun s => if amount (doc s) >? 0 then amount (doc s) else 0) l)
  - sumZ (map (fun s => if amount (doc s) <? 0
                        then Z.abs (amount (doc s)) else 0) l)
  = sumZ (map (fun s => amount (doc s)) l)
  ∧ 0 ≤ sumZ (map (fun s => if amount (doc s) >? 0
                             then amount (doc s) else 0) l)
  ∧ 0 ≤ sumZ (map (fun s => if amount (doc s) <? 0
                             then Z.abs (amount (doc s)) else 0) l).
Proof.
  induction l as [|s l (IH1 & IH2 & IH3)]; simpl; [lia|].
  rewrite Z.gtb_ltb.
  destruct (Z.ltb_spec 0 (amount (doc s))), (Z.ltb_spec (amount (doc s)) 0);
    lia.
Qed.

(** X6.  In the summary of the coin statistics the earned total minus the
    spent total is the sum of the amounts of the user's completed
    transactions of the period, both totals are non-negative, and the
    number of transactions is the number of those documents; without such
    a document all three are zero. *)
Theorem coin_summary_is_net_of_matches
    (uid : nat) (days now : Z) (collection : list Stored) :
  let matched :=
    List.filter (statsMatch uid (now - days * 86400000)) collection in
  let s := getUserCoinStats_summary uid days now collection in
  totalEarned s - totalSpent s = sumZ (map (fun x => amount (doc x)) matched)
  ∧ 0 ≤ totalEarned s ∧ 0 ≤ totalSpent s
  ∧ totalTransactions s = Z.of_nat (length matched)
  ∧ (matched = [] → s = mkSummary 0 0 0).
Proof.
  intros matched s. unfold s, getUserCoinStats_summary. fold matched.
  destruct matched as [|x l] eqn:E; simpl.
  - repeat split; lia.
  - destruct (sumZ_net (x :: l)) as (H1 & H2 & H3). simpl in H1, H2, H3.
    repeat split; try assumption; try lia. discriminate.
Qed.

End CoinLedgerMore.

(** * Further properties of the task service *)

Section TaskOperations.

Import TaskService.

Variable Task_validate : Task.t → option Error.
Variable Task_complete : option Z → Task.t → Task.t.

Local Abbreviation owned taskId userId :=
  (fun t => (Task._id t =? taskId)%nat && (Task.userId t =? userId)%nat).

Lemma owned_true (taskId userId : nat) (t : Task.t) :
  owned taskId userId t = true ↔ Task._id t = taskId ∧ Task.userId t = userId.
Proof.
  rewrite andb_true_iff, !Nat.eqb_eq. reflexivity.
Qed.

Lemma find_owned_Some (taskId userId : nat) (l : list Task.t) (t : Task.t) :
  List.find (owned taskId userId) l = Some t →
  t ∈ l ∧ Task._id t = taskId ∧ Task.userId t = userId.
Proof.
  intros [Hin Ht]%List.find_some. split.
  - now apply list_elem_of_In.
  - now apply owned_true.
Qed.

Lemma find_owned_None (taskId userId : nat) (l : list Task.t) :
  (∀ t, t ∈ l → Task._id t = taskId → Task.userId t ≠ userId) →
  List.find (owned taskId userId) l = None.
Proof.
  intros H. destruct (List.find _ l) as [t|] eqn:E; [|reflexivity].
  apply find_owned_Some in E as (Hin & Hid & Hu).
  now destruct (H t Hin Hid).
Qed.

Lemma find_owned_upsert (taskId userId : nat) (l : list Task.t) (t t' : Task.t) :
  List.find (owned taskId userId) l = Some t →
  Task._id t' = taskId → Task.userId t' = userId →
  List.find (owned taskId userId) (upsert t' l) = Some t'.
Proof.
  intros Hf Hid Hu.
  assert (Ht' : owned taskId userId t' = true) by now apply owned_true.
  induction l as [|x r IH]; [discriminate|]. simpl in *.
  destruct (owned taskId userId x) eqn:Hx.
  - apply owned_true in Hx as [Hx _].
    rewrite Hid, Hx, Nat.eqb_refl. simpl. now rewrite Ht'.
  - destruct (Task._id x =? Task._id t')%nat; simpl.
    + now rewrite Ht'.
    + rewrite Hx. now apply IH.
Qed.

Lemma upsert_length (l : list Task.t) (t t' : Task.t) :
  t ∈ l → Task._id t = Task._id t' →
  length (upsert t' l) = length l.
Proof.
  intros Hin Hid. induction l as [|x r IH]; [now apply elem_of_nil in Hin|].
  simpl. destruct (Task._id x =? Task._id t')%nat eqn:E; [reflexivity|].
  simpl. f_equal. apply IH.
  apply elem_of_cons in Hin as [->|Hin]; [|exact Hin].
  rewrite Hid, Nat.eqb_refl in E. discriminate.
Qed.

Lemma upsert_keeps (l : list Task.t) (x t' : Task.t) :
  x ∈ l → Task._id x ≠ Task._id t' → x ∈ upsert t' l.
Proof.
  intros Hin Hne. induction l as [|y r IH]; [now apply elem_of_nil in Hin|].
  simpl. apply elem_of_cons in Hin as [->|Hin].
  - apply Nat.eqb_neq in Hne. rewrite Hne. apply list_elem_of_here.
  - destruct (Task._id y =? Task._id t')%nat.
    + now apply list_elem_of_further.
    + apply list_elem_of_further. now apply IH.
Qed.

(** With unique ids, the documents after a write are the written one and
    the old ones with another [_id]. *)
Lemma upsert_elem_inv (l : list Task.t) (x t' : Task.t) :
  NoDup (map Task._id l) →
  x ∈ upsert t' l →
  x = t' ∨ (x ∈ l ∧ Task._id x ≠ Task._id t').
Proof.
  induction l as [|y r IH]; simpl; intros Hnd Hin.
  - apply list_elem_of_singleton in Hin. now left.
  - apply NoDup_cons in Hnd as [Hy Hnd].
    destruct (Task._id y =? Task._id t')%nat eqn:E.
    + apply Nat.eqb_eq in E.
      apply elem_of_cons in Hin as [->|Hin]; [now left|]. right.
      split; [now apply list_elem_of_further|].
      intros Hx. apply Hy. rewrite E, <- Hx.
      apply list_elem_of_fmap. now exists x.
    + apply Nat.eqb_neq in E.
      apply elem_of_cons in Hin as [->|Hin].
      * right. split; [apply list_elem_of_here | exact E].
      * destruct (IH Hnd Hin) as [->|[Hx Hne]]; [now left|].
        right. split; [now apply list_elem_of_further | exact Hne].
Qed.

(** X7.  A task is reachable only through its owner: when every task with
    the given [_id] belongs to another user, completing it, toggling it,
    attaching an album to it and deleting it all throw the "task not
    found" error and write nothing. *)
Theorem foreign_task_is_not_found
    (userId taskId : nat) (w : World)
    (completionData : CompletionData.t) (albumData : AlbumData.t)
    (isCompleted : option bool) (now : Z) :
  (∀ t, t ∈ tasks w → Task._id t = taskId → Task.userId t ≠ userId) →
  completeTask Task_validate Task_complete userId taskId completionData w
    = (Throw taskNotFound, w)
  ∧ toggleTaskCompletion Task_validate userId taskId isCompleted now w
    = (Throw taskNotFound, w)
  ∧ createGrowthAlbum Task_validate userId taskId albumData w
    = (Throw taskNotFound, w)
  ∧ deleteTask userId taskId w = (Throw taskNotFound, w).
Proof.
  intros H%find_owned_None.
  unfold completeTask, toggleTaskCompletion, createGrowthAlbum, deleteTask,
    bind, Task_findOne, gets. simpl. rewrite H. repeat split.
Qed.

(** The outcome of a toggle that finds its task. *)
Lemma toggle_found (userId taskId : nat) (isCompleted : option bool) (now : Z)
    (w : World) (t : Task.t) :
  Task_findOne taskId userId w = (Ok (Some t), w) →
  let flag := default (negb (Task.isCompleted t)) isCompleted in
  let t' := set_completion flag (if flag then Some now else None) t in
  toggleTaskCompletion Task_validate userId taskId isCompleted now w =
    match Task_validate t' with
    | Some e => (Throw e, w)
    | None => (Ok t', set_tasks (upsert t') w)
    end.
Proof.
  intros Hf flag t'. unfold toggleTaskCompletion, bind. rewrite Hf.
  assert (Hflag : match isCompleted with
                  | Some b => b
                  | None => negb (Task.isCompleted t)
                  end = flag) by now destruct isCompleted.
  rewrite Hflag. fold t'. unfold Task_save.
  destruct (Task_validate t'); reflexivity.
Qed.

Lemma toggle_stored (userId taskId : nat) (isCompleted : option bool)
    (now : Z) (w : World) (t : Task.t) :
  Task_findOne taskId userId w = (Ok (Some t), w) →
  let flag := default (negb (Task.isCompleted t)) isCompleted in
  let t' := set_completion flag (if flag then Some now else None) t in
  Task_validate t' = None →
  toggleTaskCompletion Task_validate userId taskId isCompleted now w
    = (Ok t', set_tasks (upsert t') w)
  ∧ Task_findOne taskId userId (set_tasks (upsert t') w)
    = (Ok (Some t'), set_tasks (upsert t') w).
Proof.
  intros Hf flag t' Hv.
  pose proof (toggle_found userId taskId isCompleted now w t Hf) as Ht.
  cbv zeta in Ht. fold flag t' in Ht. rewrite Hv in Ht.
  split; [exact Ht|].
  assert (Hfind : List.find (owned taskId userId) (tasks w) = Some t).
  { unfold Task_findOne, gets in Hf. congruence. }
  destruct (find_owned_Some _ _ _ _ Hfind) as (Hin & Hid & Hu).
  unfold Task_findOne, gets. simpl.
  now rewrite (find_owned_upsert taskId userId _ t t' Hfind Hid Hu).
Qed.

(** X8.  A toggle that finds its task and passes validation returns the
    task with the requested flag (or the negated one when none is given),
    stamped with the time of the call exactly when it is completed; the
    next lookup yields that document, the number of tasks is unchanged and
    every task with another [_id] is still there. *)
Theorem toggle_sets_flag_and_stamp
    (userId taskId : nat) (isCompleted : option bool) (now : Z)
    (w : World) (t : Task.t) :
  Task_findOne taskId userId w = (Ok (Some t), w) →
  let flag := default (negb (Task.isCompleted t)) isCompleted in
  let t' := set_completion flag (if flag then Some now else None) t in
  Task_validate t' = None →
  ∃ w',
    toggleTaskCompletion Task_validate userId taskId isCompleted now w
      = (Ok t', w')
    ∧ Task.isCompleted t' = flag
    ∧ Task.completedAt t' = (if flag then Some now else None)
    ∧ Task_findOne taskId userId w' = (Ok (Some t'), w')
    ∧ length (tasks w') = length (tasks w)
    ∧ (∀ x, x ∈ tasks w → Task._id x ≠ taskId → x ∈ tasks w')
    ∧ users w' = users w ∧ growthAlbums w' = growthAlbums w.
Proof.
  intros Hf flag t' Hv.
  pose proof (toggle_found userId taskId isCompleted now w t Hf) as Ht.
  cbv zeta in Ht. fold flag t' in Ht. rewrite Hv in Ht.
  assert (Hfind : List.find (owned taskId userId) (tasks w) = Some t).
  { unfold Task_findOne, gets in Hf. congruence. }
  destruct (find_owned_Some _ _ _ _ Hfind) as (Hin & Hid & Hu).
  exists (set_tasks (upsert t') w). split; [exact Ht|].
  split; [reflexivity|]. split; [reflexivity|]. split; [|split; [|split]].
  - unfold Task_findOne, gets. simpl.
    now rewrite (find_owned_upsert taskId userId _ t t' Hfind Hid Hu).
  - simpl. now apply (upsert_length _ t).
  - intros x Hx Hne. simpl. apply upsert_keeps; [exact Hx|].
    simpl. congruence.
  - split; reflexivity.
Qed.

(** X9.  Two toggles without an argument bring the completion flag back
    to where it was; the completion time is not restored but taken from the
    second call, when the task ends up completed. *)
Theorem toggle_twice_restores_flag
    (userId taskId : nat) (now1 now2 : Z) (w : World) (t : Task.t) :
  Task_findOne taskId userId w = (Ok (Some t), w) →
  let c := Task.isCompleted t in
  let t1 := set_completion (negb c) (if negb c then Some now1 else None) t in
  let t2 := set_completion c (if c then Some now2 else None) t in
  Task_validate t1 = None →
  Task_validate t2 = None →
  ∃ w1 w2,
    toggleTaskCompletion Task_validate userId taskId None now1 w = (Ok t1, w1)
    ∧ toggleTaskCompletion Task_validate userId taskId None now2 w1
      = (Ok t2, w2)
    ∧ Task.isCompleted t2 = Task.isCompleted t
    ∧ Task.completedAt t2 = (if Task.isCompleted t then Some now2 else None).
Proof.
  intros Hf c t1 t2 Hv1 Hv2.
  destruct (toggle_stored userId taskId None now1 w t Hf Hv1) as (Hrun1 & Hf1).
  exists (set_tasks (upsert t1) w).
  pose proof (toggle_found userId taskId None now2 _ t1 Hf1) as Hrun2.
  cbv zeta in Hrun2. simpl in Hrun2. fold c in Hrun2.
  rewrite negb_involutive in Hrun2.
  change (set_completion c (if c then Some now2 else None) t1) with t2 in Hrun2.
  rewrite Hv2 in Hrun2.
  eexists. split; [exact Hrun1|]. split; [exact Hrun2|]. split; reflexivity.
Qed.

Lemma toggle_frame (userId taskId : nat) (isCompleted : option bool) (now : Z)
    (w w' : World) r :
  toggleTaskCompletion Task_validate userId taskId isCompleted now w = (r, w') →
  users w' = users w ∧ categories w' = categories w
  ∧ growthAlbums w' = growthAlbums w.
Proof.
  unfold toggleTaskCompletion, bind, Task_findOne, gets, Task_save, throw,
    modify, ret. simpl.
  destruct (List.find _ (tasks w)) as [t|]; [|now intros [= <- <-]].
  destruct (Task_validate _); now intros [= <- <-].
Qed.

Variable tzOffset : Z.

(** X10.  Once the reward of a day is recorded, changing the completion of
    a task and running the gate again on that day yields no reward and
    leaves the user document as it is. *)
Theorem toggle_on_rewarded_day_gives_no_reward
    (userId taskId : nat) (isCompleted : option bool) (user : User.t)
    (stamp today now : Z) (w w1 : World) (t' : Task.t) :
  users w !! userId = Some user →
  alreadyRewarded user today = true →
  toggleTaskCompletion Task_validate userId taskId isCompleted stamp w
    = (Ok t', w1) →
  checkDailyTaskCompletion tzOffset userId today now w1 = (Ok None, w1)
  ∧ users w1 !! userId = Some user.
Proof.
  intros Hu Ha Ht.
  destruct (toggle_frame _ _ _ _ _ _ _ Ht) as (Husers & _ & _).
  assert (Hu1 : users w1 !! userId = Some user) by now rewrite Husers.
  split; [|exact Hu1].
  now apply (already_rewarded_blocks tzOffset userId today now w1 user).
Qed.

(** X11.  Completing the last open task of the day earns the coin: for a
    premium user without a reward for the day, whose due tasks other than
    the toggled one are all completed, the toggle to "completed" followed
    by the gate returns the reward and the balance raised by one. *)
Theorem completing_last_open_task_mints
    (userId taskId : nat) (user : User.t) (stamp today now : Z)
    (w : World) (t : Task.t) :
  uniqueIds w →
  users w !! userId = Some user →
  User.isPremium user = true →
  alreadyRewarded user today = false →
  Task_findOne taskId userId w = (Ok (Some t), w) →
  t ∈ todayTasks tzOffset userId today w →
  (∀ x, x ∈ todayTasks tzOffset userId today w →
        Task._id x ≠ taskId → Task.isCompleted x = true) →
  Task_validate (set_completion true (Some stamp) t) = None →
  ∃ t' w1,
    toggleTaskCompletion Task_validate userId taskId (Some true) stamp w
      = (Ok t', w1)
    ∧ Task.isCompleted t' = true
    ∧ checkDailyTaskCompletion tzOffset userId today now w1
      = (Ok (Some (mkCoinReward true 1 (User.coins user + 1) rewardMessage)),
         set_users <[userId := credited user now]> w1).
Proof.
  intros Huniq Hu Hp Hnot Hf Hdue Hothers Hv.
  pose proof (toggle_found userId taskId (Some true) stamp w t Hf) as Hrun.
  cbv zeta in Hrun. simpl in Hrun. rewrite Hv in Hrun.
  set (t' := set_completion true (Some stamp) t) in *.
  exists t', (set_tasks (upsert t') w).
  split; [exact Hrun|]. split; [reflexivity|].
  assert (Hfind : List.find (owned taskId userId) (tasks w) = Some t).
  { unfold Task_findOne, gets in Hf. congruence. }
  destruct (find_owned_Some _ _ _ _ Hfind) as (Hin & Hid & Hown).
  rewrite check_unfold. simpl. rewrite Hu.
  assert (Hall : forallb Task.isCompleted
                   (todayTasks tzOffset userId today (set_tasks (upsert t') w))
                 = true).
  { apply forallb_forall. intros x Hx%list_elem_of_In.
    unfold todayTasks, tasksBetween in Hx. simpl in Hx.
    apply list_elem_of_filter in Hx as [HP Hx].
    destruct (upsert_elem_inv _ _ _ Huniq Hx) as [->|[Hxl Hne]];
      [reflexivity|].
    apply Hothers.
    - unfold todayTasks, tasksBetween. now apply list_elem_of_filter.
    - simpl in Hne. congruence. }
  assert (Hne : todayTasks tzOffset userId today (set_tasks (upsert t') w) ≠ []).
  { unfold todayTasks, tasksBetween in *. simpl.
    apply list_elem_of_filter in Hdue as [HP _].
    intros Hnil.
    apply (filter_nil_not_elem_of _ _ t' Hnil); [exact HP | apply upsert_elem]. }
  unfold mints. rewrite Hp, Hall, Hnot. simpl.
  destruct (todayTasks tzOffset userId today (set_tasks (upsert t') w));
    [congruence | reflexivity].
Qed.

End TaskOperations.

Section TaskStorage.

Import TaskService.

Variable Task_validate : Task.t → option Error.
Variable Task_createRepeatingTasks : Task.t → list Task.t.
Variable Task_complete : option Z → Task.t → Task.t.
Variable Category_updateStats : Category.t → list Task.t → Category.t.

Local Abbreviation owned taskId userId :=
  (fun t => (Task._id t =? taskId)%nat && (Task.userId t =? userId)%nat).

(** The database after [deleteTask] found [t]. *)
Lemma deleteTask_found (userId taskId : nat) (w : World) (t : Task.t) :
  Task_findOne taskId userId w = (Ok (Some t), w) →
  deleteTask userId taskId w =
    (Ok (mkDeleteResult true),
     set_tasks (filter (fun x => Task._id x ≠ Task._id t))
       (if Task.hasGrowthAlbum t
        then set_growthAlbums
               (filter (fun a => GrowthAlbum.taskId a ≠ Task._id t)) w
        else w)).
Proof.
  intros Hf. unfold deleteTask, bind. rewrite Hf.
  destruct (Task.hasGrowthAlbum t); reflexivity.
Qed.

Lemma found_id (userId taskId : nat) (w : World) (t : Task.t) :
  Task_findOne taskId userId w = (Ok (Some t), w) →
  t ∈ tasks w ∧ Task._id t = taskId ∧ Task.userId t = userId.
Proof.
  intros Hf. apply find_owned_Some.
  unfold Task_findOne, gets in Hf. congruence.
Qed.

(** X12.  [deleteTask] on a task it finds removes every task document with
    that [_id] and keeps all others; afterwards the task is found for no
    user.  The albums of the task are removed when the task is flagged as
    having an album, and otherwise all albums stay; user documents are
    untouched. *)
Theorem delete_removes_task_and_albums
    (userId taskId : nat) (w : World) (t : Task.t) :
  Task_findOne taskId userId w = (Ok (Some t), w) →
  ∃ w',
    deleteTask userId taskId w = (Ok (mkDeleteResult true), w')
    ∧ (∀ x, x ∈ tasks w' ↔ x ∈ tasks w ∧ Task._id x ≠ taskId)
    ∧ (∀ anyUser, Task_findOne taskId anyUser w' = (Ok None, w'))
    ∧ (∀ a, a ∈ growthAlbums w' ↔
            a ∈ growthAlbums w
            ∧ (Task.hasGrowthAlbum t = true → GrowthAlbum.taskId a ≠ taskId))
    ∧ users w' = users w.
Proof using.
  intros Hf. destruct (found_id _ _ _ _ Hf) as (_ & Hid & _).
  eexists. split; [exact (deleteTask_found _ _ _ _ Hf)|].
  rewrite Hid.
  assert (Htasks : ∀ x,
            x ∈ filter (fun x => Task._id x ≠ taskId) (tasks w)
            ↔ x ∈ tasks w ∧ Task._id x ≠ taskId).
  { intros x. rewrite list_elem_of_filter. split; intros [? ?]; now split. }
  split; [|split; [|split]].
  - intros x. destruct (Task.hasGrowthAlbum t); simpl; apply Htasks.
  - intros anyUser. unfold Task_findOne, gets. do 2 f_equal.
    apply find_owned_None. intros x Hx Hxid. simpl in Hx.
    assert (Hx' : x ∈ filter (fun x => Task._id x ≠ taskId) (tasks w))
      by (destruct (Task.hasGrowthAlbum t); exact Hx).
    apply Htasks in Hx' as [_ Hne]. contradiction.
  - intros a. destruct (Task.hasGrowthAlbum t); simpl.
    + rewrite list_elem_of_filter. split.
      * intros [Hne Ha]. now split.
      * intros [Ha Hne]. split; [now apply Hne | exact Ha].
    + split; [intros Ha; split; [exact Ha | discriminate] | now intros [Ha _]].
  - destruct (Task.hasGrowthAlbum t); reflexivity.
Qed.

(** The outcome of [createGrowthAlbum] on a task it finds. *)
Lemma createGrowthAlbum_found
    (userId taskId : nat) (albumData : AlbumData.t) (w : World) (t : Task.t) :
  Task_findOne taskId userId w = (Ok (Some t), w) →
  let a := newAlbum userId taskId albumData in
  let w1 := set_growthAlbums (fun l => l ++ [a]) w in
  createGrowthAlbum Task_validate userId taskId albumData w =
    if Task.hasGrowthAlbum t then (Ok a, w1)
    else match Task_validate (set_hasGrowthAlbum true t) with
         | Some e => (Throw e, w1)
         | None => (Ok a, set_tasks (upsert (set_hasGrowthAlbum true t)) w1)
         end.
Proof.
  intros Hf a w1. unfold createGrowthAlbum, bind. rewrite Hf.
  unfold GrowthAlbum_save, modify, Task_save. fold a. simpl. fold w1.
  destruct (Task.hasGrowthAlbum t); simpl; [reflexivity|].
  destruct (Task_validate _); reflexivity.
Qed.

(** X13.  An album attached to a task goes away with the task: after
    [createGrowthAlbum] succeeded, the task is flagged, and [deleteTask]
    leaves no album of that task behind. *)
Theorem album_is_deleted_with_its_task
    (userId taskId : nat) (albumData : AlbumData.t) (w : World) (t : Task.t) :
  Task_findOne taskId userId w = (Ok (Some t), w) →
  (Task.hasGrowthAlbum t = false →
   Task_validate (set_hasGrowthAlbum true t) = None) →
  ∃ a w1 w2 t1,
    createGrowthAlbum Task_validate userId taskId albumData w = (Ok a, w1)
    ∧ a ∈ growthAlbums w1
    ∧ GrowthAlbum.taskId a = taskId
    ∧ Task_findOne taskId userId w1 = (Ok (Some t1), w1)
    ∧ Task.hasGrowthAlbum t1 = true
    ∧ deleteTask userId taskId w1 = (Ok (mkDeleteResult true), w2)
    ∧ (∀ b, b ∈ growthAlbums w2 → GrowthAlbum.taskId b ≠ taskId).
Proof.
  intros Hf Hv.
  pose proof (createGrowthAlbum_found userId taskId albumData w t Hf) as Hc.
  cbv zeta in Hc.
  destruct (found_id _ _ _ _ Hf) as (Hin & Hid & Hown).
  set (a := newAlbum userId taskId albumData) in *.
  set (w1 := set_growthAlbums (fun l => l ++ [a]) w) in *.
  assert (Hfind : List.find (owned taskId userId) (tasks w) = Some t).
  { unfold Task_findOne, gets in Hf. congruence. }
  assert (Ha : a ∈ growthAlbums w1).
  { simpl. apply elem_of_app. right. apply list_elem_of_here. }
  assert (Hdel : ∀ w' t1,
            growthAlbums w' = growthAlbums w1 →
            Task_findOne taskId userId w' = (Ok (Some t1), w') →
            Task.hasGrowthAlbum t1 = true →
            ∃ w2, deleteTask userId taskId w' = (Ok (mkDeleteResult true), w2)
                  ∧ ∀ b, b ∈ growthAlbums w2 → GrowthAlbum.taskId b ≠ taskId).
  { intros w' t1 Hg Hf1 Hflag. eexists.
    split; [exact (deleteTask_found _ _ _ _ Hf1)|].
    destruct (found_id _ _ _ _ Hf1) as (_ & Hid1 & _).
    rewrite Hflag, Hid1. simpl. intros b Hb.
    now apply list_elem_of_filter in Hb as [Hne _]. }
  destruct (Task.hasGrowthAlbum t) eqn:Hflag.
  - assert (Hf1 : Task_findOne taskId userId w1 = (Ok (Some t), w1)).
    { unfold Task_findOne, gets. simpl. now rewrite Hfind. }
    destruct (Hdel w1 t eq_refl Hf1 Hflag) as (w2 & Hd & Hnone).
    exists a, w1, w2, t. repeat split; try assumption.
  - rewrite (Hv eq_refl) in Hc.
    set (t1 := set_hasGrowthAlbum true t) in *.
    assert (Hf1 : Task_findOne taskId userId (set_tasks (upsert t1) w1)
                  = (Ok (Some t1), set_tasks (upsert t1) w1)).
    { unfold Task_findOne, gets. simpl.
      now rewrite (find_owned_upsert taskId userId _ t t1 Hfind Hid Hown). }
    destruct (Hdel (set_tasks (upsert t1) w1) t1 eq_refl Hf1 eq_refl)
      as (w2 & Hd & Hnone).
    exists a, (set_tasks (upsert t1) w1), w2, t1.
    repeat split; try assumption.
Qed.

(** X14.  [createGrowthAlbum] stores the album before it flags the task.
    When the write of the flag is rejected, the call throws that error,
    yet the album is in the collection and the task is unchanged. *)
Theorem album_stays_when_flagging_fails
    (userId taskId : nat) (albumData : AlbumData.t) (w : World)
    (t : Task.t) (e : Error) :
  Task_findOne taskId userId w = (Ok (Some t), w) →
  Task.hasGrowthAlbum t = false →
  Task_validate (set_hasGrowthAlbum true t) = Some e →
  ∃ w',
    createGrowthAlbum Task_validate userId taskId albumData w = (Throw e, w')
    ∧ growthAlbums w'
      = growthAlbums w ++ [newAlbum userId taskId albumData]
    ∧ tasks w' = tasks w.
Proof.
  intros Hf Hflag Hv.
  pose proof (createGrowthAlbum_found userId taskId albumData w t Hf) as Hc.
  cbv zeta in Hc. rewrite Hflag, Hv in Hc.
  eexists. split; [exact Hc|]. split; reflexivity.
Qed.


End TaskStorage.

Section GateInvariants.

Import TaskService.

Variable tzOffset : Z.

(** What one call does to the document of any user. *)
Lemma check_user_step (userId k : nat) (today now : Z) (w : World) (u : User.t) :
  users w !! k = Some u →
  ∃ u', users (snd (checkDailyTaskCompletion tzOffset userId today now w)) !! k
        = Some u'
        ∧ (u' = u
           ∨ (k = userId ∧ u' = credited u now
              ∧ alreadyRewarded u today = false)).
Proof.
  intros Hk. rewrite check_unfold.
  destruct (users w !! userId) as [user|] eqn:Hu; [|eauto].
  destruct (mints user _ today) eqn:Hm; [|eauto]. simpl.
  destruct (decide (userId = k)) as [->|Hne].
  - rewrite lookup_insert_eq. assert (user = u) as -> by congruence.
    eexists. split; [reflexivity|]. right. repeat split.
    unfold mints in Hm. apply andb_true_iff in Hm as [_ Hm].
    now apply negb_true_iff in Hm.
  - rewrite lookup_insert_ne by exact Hne. eauto.
Qed.

(** X17.  The gate writes at most the document of the calling user:
    tasks, categories, albums and all other users are as before, and the
    caller keeps the premium flag, gains 0 or 1 coin and keeps all recorded
    rewards, with at most one appended. *)
Theorem gate_touches_only_the_caller
    (userId : nat) (today now : Z) (w w' : World)
    (r : Result (option CoinReward)) :
  checkDailyTaskCompletion tzOffset userId today now w = (r, w') →
  tasks w' = tasks w ∧ categories w' = categories w
  ∧ growthAlbums w' = growthAlbums w
  ∧ (∀ other, other ≠ userId → users w' !! other = users w !! other)
  ∧ (users w !! userId = None → users w' !! userId = None)
  ∧ (∀ u, users w !! userId = Some u →
       ∃ u', users w' !! userId = Some u'
             ∧ User.isPremium u' = User.isPremium u
             ∧ (u' = u
                ∨ (User.coins u' = User.coins u + 1
                   ∧ User.dailyRewards u'
                     = User.dailyRewards u
                       ++ [User.mkReward "task_completion" 1 now]))).
Proof.
  rewrite check_unfold.
  destruct (users w !! userId) as [user|] eqn:Hu.
  - destruct (mints user _ today); intros [= <- <-]; simpl.
    + do 3 (split; [reflexivity|]). split; [|split; [discriminate|]].
      * intros other Hne. now rewrite lookup_insert_ne.
      * intros u [= <-]. rewrite lookup_insert_eq. eexists.
        split; [reflexivity|]. split; [reflexivity|]. right. now split.
    + do 4 (split; [reflexivity|]). split; [discriminate|].
      intros u [= <-]. rewrite Hu. eexists. repeat split. now left.
  - intros [= <- <-]. do 4 (split; [reflexivity|]).
    split; [intros _; exact Hu | discriminate].
Qed.

Lemma rewardTotal_app (l1 l2 : list User.DailyReward) :
  rewardTotal (l1 ++ l2) = rewardTotal l1 + rewardTotal l2.
Proof. induction l1 as [|x l1 IH]; simpl; lia. Qed.

Lemma gateCalls_cons (call : nat * Z * Z) calls (w : World) :
  gateCalls tzOffset (call :: calls) w
  = gateCalls tzOffset calls
      (snd (checkDailyTaskCompletion tzOffset call.1.1 call.1.2 call.2 w)).
Proof. reflexivity. Qed.

(** X18.  The wallet follows the ledger: over any sequence of gate calls,
    by whichever users, the balance of a user changes by exactly the sum
    of the reward amounts that were appended to that user's rewards, and
    it never decreases. *)
Theorem wallet_follows_ledger
    (calls : list (nat * Z * Z)) (w : World) (k : nat) (u : User.t) :
  users w !! k = Some u →
  ∃ u' appended,
    users (gateCalls tzOffset calls w) !! k = Some u'
    ∧ User.dailyRewards u' = User.dailyRewards u ++ appended
    ∧ User.coins u' = User.coins u + rewardTotal appended
    ∧ User.coins u ≤ User.coins u'
    ∧ Z.of_nat (length appended) = rewardTotal appended.
Proof.
  revert w u. induction calls as [|[[uid today] now] calls IH]; intros w u Hk.
  - exists u, []. simpl. rewrite app_nil_r. repeat split; try lia. exact Hk.
  - rewrite gateCalls_cons. simpl.
    destruct (check_user_step uid k today now w u Hk)
      as (u1 & Hk1 & [->|(-> & -> & _)]).
    + now apply (IH _ u).
    + destruct (IH _ _ Hk1) as (u' & app & Hl & Hr & Hc & Hle & Hlen).
      exists u', (User.mkReward "task_completion" 1 now :: app).
      split; [exact Hl|]. simpl in *.
      rewrite Hr, <- app_assoc. simpl.
      repeat split; lia.
Qed.

Lemma existsb_false_filter {A} (p : A → bool) (l : list A) :
  existsb p l = false → List.filter p l = [].
Proof.
  induction l as [|x l IH]; simpl; [reflexivity|].
  intros [Hx Hl]%orb_false_iff. rewrite Hx. now apply IH.
Qed.

Lemma rewardsOn_credited (u : User.t) (today now day : Z) :
  isoDate today = isoDate now →
  alreadyRewarded u today = false →
  (rewardsOn day (User.dailyRewards u) ≤ 1)%nat →
  (rewardsOn day (User.dailyRewards (credited u now)) ≤ 1)%nat.
Proof.
  intros Hd Ha Hle. unfold rewardsOn, credited in *. simpl.
  rewrite List.filter_app, length_app. simpl.
  destruct (Z.eqb_spec (isoDate now) day) as [<-|Hne]; simpl; [|lia].
  unfold alreadyRewarded in Ha. rewrite Hd in Ha.
  rewrite (existsb_false_filter _ _ Ha). simpl. lia.
Qed.

(** X19.  At most one task-completion reward per UTC day: when every call
    reads its two clock values on the same UTC day, a reward list with at
    most one task-completion entry per day stays such a list over any
    sequence of gate calls. *)
Theorem one_reward_per_day_is_kept
    (calls : list (nat * Z * Z)) (w : World) (k : nat) (u : User.t) :
  Forall (fun call => isoDate call.1.2 = isoDate call.2) calls →
  users w !! k = Some u →
  (∀ day, (rewardsOn day (User.dailyRewards u) ≤ 1)%nat) →
  ∃ u', users (gateCalls tzOffset calls w) !! k = Some u'
        ∧ ∀ day, (rewardsOn day (User.dailyRewards u') ≤ 1)%nat.
Proof.
  revert w u. induction calls as [|[[uid today] now] calls IH];
    intros w u Hsame Hk Hone.
  - exists u. now split.
  - apply Forall_cons in Hsame as [Hd Hsame]. simpl in Hd.
    rewrite gateCalls_cons. simpl.
    destruct (check_user_step uid k today now w u Hk)
      as (u1 & Hk1 & [->|(-> & -> & Ha)]).
    + now apply (IH _ u).
    + apply (IH _ _ Hsame Hk1). intros day.
      now apply (rewardsOn_credited u today now day).
Qed.

End GateInvariants.

(** * Further properties of the monthly task view *)

Section MonthlyTasks.

Import TaskService.

Variable Task_getMonthlyTasks : nat → Z → Z → list Task.t → list Task.t.
Variable Task_formattedDate : Task.t → string.

(** The tasks of [l] under the key [k], as [tasksByDate[k]] holds them. *)
Local Abbreviation grouped k l :=
  (match filter (fun t => Task_formattedDate t = k) l with
   | [] => None
   | g => Some g
   end).

Lemma groupByDate_fold (l pre : list Task.t) (m : gmap string (list Task.t)) :
  (∀ k, m !! k = grouped k pre) →
  ∀ k,
    foldl (fun tasksByDate task =>
             let dateKey := Task_formattedDate task in
             <[dateKey := default [] (tasksByDate !! dateKey) ++ [task]]>
               tasksByDate) m l !! k
    = grouped k (pre ++ l).
Proof.
  revert pre m. induction l as [|t l IH]; intros pre m Hm k; simpl.
  - now rewrite app_nil_r.
  - replace (pre ++ t :: l) with ((pre ++ [t]) ++ l) by now rewrite <- app_assoc.
    apply IH. clear k. intros k. rewrite filter_app.
    destruct (decide (Task_formattedDate t = k)) as [Hk|Hk].
    + rewrite Hk, lookup_insert_eq, Hm.
      rewrite (filter_cons_True (fun t => Task_formattedDate t = k) t [] Hk),
        filter_nil.
      destruct (filter _ pre) as [|x g]; reflexivity.
    + rewrite lookup_insert_ne by exact Hk. rewrite Hm.
      rewrite (filter_cons_False (fun t => Task_formattedDate t = k) t [] Hk),
        filter_nil, app_nil_r.
      reflexivity.
Qed.

Lemma groupByDate_lookup (l : list Task.t) (k : string) :
  groupByDate Task_formattedDate l !! k = grouped k l.
Proof.
  unfold groupByDate. apply (groupByDate_fold l [] ∅). intros k'.
  now rewrite lookup_empty.
Qed.

Lemma groupByDate_size_fold (l : list Task.t) (m : gmap string (list Task.t)) :
  (size (foldl (fun tasksByDate task =>
                  let dateKey := Task_formattedDate task in
                  <[dateKey := default [] (tasksByDate !! dateKey) ++ [task]]>
                    tasksByDate) m l)
   ≤ size m + length l)%nat.
Proof.
  revert m. induction l as [|t l IH]; intros m; simpl; [lia|].
  etransitivity; [apply IH|].
  destruct (m !! Task_formattedDate t) as [g|] eqn:E; simpl.
  - rewrite map_size_insert_Some by (rewrite E; eauto). lia.
  - rewrite map_size_insert_None by exact E. lia.
Qed.

(** X20.  [getMonthlyTasks] groups the tasks of the month by their
    formatted date: under each date are exactly the tasks with that date,
    in the order of the query result, and a date without tasks is not a
    key.  Nothing is written. *)
Theorem monthly_tasks_are_grouped_by_date
    (userId : nat) (year month : Z) (w : World) :
  let found := Task_getMonthlyTasks userId year month (tasks w) in
  ∃ r,
    getMonthlyTasks Task_getMonthlyTasks Task_formattedDate
                    userId year month w = (Ok r, w)
    ∧ ∀ k, tasksByDate r !! k
           = match filter (fun t => Task_formattedDate t = k) found with
             | [] => None
             | g => Some g
             end.
Proof.
  intros found. eexists. split; [reflexivity|]. simpl.
  intros k. apply groupByDate_lookup.
Qed.

(** X21.  In the summary of [getMonthlyTasks] the completed tasks and the
    active days are at most the total number of tasks, and there is an
    active day exactly when there is a task. *)
Theorem monthly_summary_is_bounded
    (userId : nat) (year month : Z) (w : World) :
  ∃ r,
    getMonthlyTasks Task_getMonthlyTasks Task_formattedDate
                    userId year month w = (Ok r, w)
    ∧ totalTasks (summary r)
      = length (Task_getMonthlyTasks userId year month (tasks w))
    ∧ (completedTasks (summary r) ≤ totalTasks (summary r))%nat
    ∧ (activeDays (summary r) ≤ totalTasks (summary r))%nat
    ∧ (activeDays (summary r) = 0%nat ↔ totalTasks (summary r) = 0%nat).
Proof.
  eexists. split; [reflexivity|]. simpl.
  set (found := Task_getMonthlyTasks userId year month (tasks w)).
  assert (Hsize : (size (groupByDate Task_formattedDate found) ≤ length found)%nat).
  { pose proof (groupByDate_size_fold found ∅) as H.
    rewrite map_size_empty in H. exact H. }
  split; [reflexivity|]. split; [apply List.filter_length_le|].
  split; [exact Hsize|]. split.
  - intros H0%map_size_empty_iff.
    destruct found as [|t l]; [reflexivity|]. exfalso.
    pose proof (groupByDate_lookup (t :: l) (Task_formattedDate t)) as Hk.
    rewrite H0, lookup_empty in Hk.
    rewrite (filter_cons_True
               (fun x => Task_formattedDate x = Task_formattedDate t) t l
               eq_refl) in Hk.
    discriminate.
  - intros Hlen. lia.
Qed.

End MonthlyTasks.

(** * Further properties of the statistics *)

Section WeekAndConfidence.

Import AnalysisService AiService.

Lemma bestDay_cons (first : DayBucket) (rest : list DayBucket) :
  bestDay (first :: rest) = Some (foldl better first rest)
  ∧ ∃ i, earliestMax (first :: rest) i (foldl better first rest).
Proof.
  split.
  - unfold bestDay. simpl. f_equal.
    unfold better at 2. now rewrite Z.gtb_ltb, Z.ltb_irrefl.
  - apply (foldl_better rest [first] 0 first). repeat split.
    + intros x Hx%list_elem_of_singleton. subst. lia.
    + intros j y Hj. lia.
Qed.

Lemma activeDays_zero (data : list DayBucket) :
  activeDays data = 0%nat ↔ ∀ x, x ∈ data → minutes x ≤ 0.
Proof.
  unfold activeDays. induction data as [|d data IH]; simpl.
  - split; [intros _ x Hx; now apply elem_of_nil in Hx | reflexivity].
  - rewrite Z.gtb_ltb. destruct (Z.ltb_spec 0 (minutes d)) as [Hd|Hd]; simpl.
    + split; [discriminate|]. intros Hall.
      specialize (Hall d (list_elem_of_here _ _)). lia.
    + rewrite IH. split.
      * intros Hall x [->|Hx]%elem_of_cons; [lia | now apply Hall].
      * intros Hall x Hx. apply Hall. now apply list_elem_of_further.
Qed.

(** X22.  With minutes that are never negative, a week without an active
    day reports its first day as the best day; and in general the best day
    has positive minutes exactly when the week has an active day. *)
Theorem idle_week_reports_first_day
    (first : DayBucket) (rest : list DayBucket) :
  (∀ x, x ∈ first :: rest → 0 ≤ minutes x) →
  (activeDays (first :: rest) = 0%nat → bestDay (first :: rest) = Some first)
  ∧ (∀ b, bestDay (first :: rest) = Some b →
          (0 < minutes b ↔ (0 < activeDays (first :: rest))%nat)).
Proof.
  intros Hnn.
  destruct (bestDay_cons first rest) as [Hb [i (Hi & Hmax & Hbefore)]].
  set (best := foldl better first rest) in *.
  assert (Hin : best ∈ first :: rest)
    by (apply list_elem_of_lookup; eauto).
  split.
  - intros Hz. pose proof (proj1 (activeDays_zero _) Hz) as Hz'.
    clear Hz. rename Hz' into Hz. rewrite Hb. f_equal.
    destruct i as [|i]; [simpl in Hi; congruence|]. exfalso.
    specialize (Hbefore 0%nat first (Nat.lt_0_succ i) eq_refl).
    specialize (Hz best Hin).
    specialize (Hnn first (list_elem_of_here _ _)). lia.
  - intros b Hb'. assert (b = best) as -> by congruence. split.
    + intros Hpos. destruct (activeDays (first :: rest)) eqn:E; [|lia].
      pose proof (proj1 (activeDays_zero _) E best Hin). lia.
    + intros Hact. destruct (Z.ltb_spec 0 (minutes best)) as [|Hle]; [assumption|].
      assert (activeDays (first :: rest) = 0%nat); [|lia].
      apply activeDays_zero. intros x Hx. specialize (Hmax x Hx). lia.
Qed.

Lemma calculateConfidence_sum (stats : Stats) :
  calculateConfidence stats
  = Z.min (sessionScore (totalSessions stats)
           + completionScore (completionRate stats)
           + consistencyScore (totalDays stats)) 100.
Proof.
  unfold calculateConfidence, sessionScore, completionScore, consistencyScore.
  destruct (30 <=? totalSessions stats), (15 <=? totalSessions stats),
    (5 <=? totalSessions stats);
  destruct (Qle_bool (80 # 1) (completionRate stats)),
    (Qle_bool (60 # 1) (completionRate stats)),
    (Qle_bool (40 # 1) (completionRate stats));
  destruct (14 <=? totalDays stats), (7 <=? totalDays stats),
    (3 <=? totalDays stats); reflexivity.
Qed.

Lemma sessionScore_cases (n : Z) :
  (sessionScore n = 40 ∧ 30 ≤ n) ∨ (sessionScore n = 25 ∧ 15 ≤ n < 30)
  ∨ (sessionScore n = 15 ∧ 5 ≤ n < 15) ∨ (sessionScore n = 0 ∧ n < 5).
Proof.
  unfold sessionScore.
  destruct (Z.leb_spec 30 n), (Z.leb_spec 15 n), (Z.leb_spec 5 n); lia.
Qed.

Lemma consistencyScore_cases (n : Z) :
  (consistencyScore n = 30 ∧ 14 ≤ n) ∨ (consistencyScore n = 20 ∧ 7 ≤ n < 14)
  ∨ (consistencyScore n = 10 ∧ 3 ≤ n < 7) ∨ (consistencyScore n = 0 ∧ n < 3).
Proof.
  unfold consistencyScore.
  destruct (Z.leb_spec 14 n), (Z.leb_spec 7 n), (Z.leb_spec 3 n); lia.
Qed.

Lemma completionScore_cases (r : Q) :
  (completionScore r = 30 ∧ (80 # 1 <= r)%Q)
  ∨ (completionScore r = 20 ∧ ¬ (80 # 1 <= r)%Q ∧ (60 # 1 <= r)%Q)
  ∨ (completionScore r = 10
     ∧ ¬ (80 # 1 <= r)%Q ∧ ¬ (60 # 1 <= r)%Q ∧ (40 # 1 <= r)%Q)
  ∨ (completionScore r = 0
     ∧ ¬ (80 # 1 <= r)%Q ∧ ¬ (60 # 1 <= r)%Q ∧ ¬ (40 # 1 <= r)%Q).
Proof.
  assert (Hno : ∀ q, Qle_bool q r = false → ¬ (q <= r)%Q).
  { intros q E Hq%Qle_bool_iff. congruence. }
  unfold completionScore.
  destruct (Qle_bool (80 # 1) r) eqn:E1.
  { left. split; [reflexivity | now apply Qle_bool_iff]. }
  destruct (Qle_bool (60 # 1) r) eqn:E2.
  { right; left. split; [reflexivity|].
    split; [now apply Hno | now apply Qle_bool_iff]. }
  destruct (Qle_bool (40 # 1) r) eqn:E3.
  { right; right; left. split; [reflexivity|].
    split; [now apply Hno|]. split; [now apply Hno | now apply Qle_bool_iff]. }
  right; right; right. split; [reflexivity|].
  split; [now apply Hno|]. split; now apply Hno.
Qed.

(** X23.  The confidence is a multiple of 5 between 0 and 100, and it is
    100 exactly when there are at least 30 sessions, a completion rate of
    at least 80 and at least 14 days; the three contributions never add up
    to more than 100. *)
Theorem confidence_range (stats : Stats) :
  let c := calculateConfidence stats in
  0 ≤ c ≤ 100
  ∧ c mod 5 = 0
  ∧ c = sessionScore (totalSessions stats)
        + completionScore (completionRate stats)
        + consistencyScore (totalDays stats)
  ∧ (c = 100 ↔ 30 ≤ totalSessions stats
               ∧ (80 # 1 <= completionRate stats)%Q
               ∧ 14 ≤ totalDays stats).
Proof.
  intros c. unfold c. rewrite calculateConfidence_sum.
  destruct (sessionScore_cases (totalSessions stats))
    as [[-> ?]|[[-> ?]|[[-> ?]|[-> ?]]]];
  destruct (completionScore_cases (completionRate stats))
    as [[-> ?]|[[-> [? ?]]|[[-> (? & ? & ?)]|[-> (? & ? & ?)]]]];
  destruct (consistencyScore_cases (totalDays stats))
    as [[-> ?]|[[-> ?]|[[-> ?]|[-> ?]]]];
  simpl; (split; [lia|]); (split; [reflexivity|]); (split; [reflexivity|]);
  (split;
   [ intros Heq; first [discriminate Heq | repeat split; assumption || lia]
   | intros (Ha & Hb & Hc); first [reflexivity | lia | contradiction] ]).
Qed.

(** X24.  The confidence is monotone: more sessions, a higher completion
    rate and more days never lower it. *)
Theorem confidence_is_monotone (s1 s2 : Stats) :
  totalSessions s1 ≤ totalSessions s2 →
  (completionRate s1 <= completionRate s2)%Q →
  totalDays s1 ≤ totalDays s2 →
  calculateConfidence s1 ≤ calculateConfidence s2.
Proof.
  intros Hs Hr Hd. rewrite !calculateConfidence_sum.
  assert (H1 : sessionScore (totalSessions s1) ≤ sessionScore (totalSessions s2)).
  { destruct (sessionScore_cases (totalSessions s1))
      as [[-> ?]|[[-> ?]|[[-> ?]|[-> ?]]]];
    destruct (sessionScore_cases (totalSessions s2))
      as [[-> ?]|[[-> ?]|[[-> ?]|[-> ?]]]]; lia. }
  assert (H3 : consistencyScore (totalDays s1) ≤ consistencyScore (totalDays s2)).
  { destruct (consistencyScore_cases (totalDays s1))
      as [[-> ?]|[[-> ?]|[[-> ?]|[-> ?]]]];
    destruct (consistencyScore_cases (totalDays s2))
      as [[-> ?]|[[-> ?]|[[-> ?]|[-> ?]]]]; lia. }
  assert (H2 : completionScore (completionRate s1)
               ≤ completionScore (completionRate s2)).
  { assert (Hup : ∀ q, (q <= completionRate s1)%Q → (q <= completionRate s2)%Q)
      by (intros q Hq; now apply (Qle_trans _ (completionRate s1))).
    destruct (completionScore_cases (completionRate s1))
      as [[-> ?]|[[-> [? ?]]|[[-> (? & ? & ?)]|[-> (? & ? & ?)]]]];
    destruct (completionScore_cases (completionRate s2))
      as [[-> ?]|[[-> [? ?]]|[[-> (? & ? & ?)]|[-> (? & ? & ?)]]]];
    try lia; exfalso; eauto. }
  lia.
Qed.

End WeekAndConfidence.

(** * The further properties on the example data *)

Section MoreInstances.

Import TaskService Examples.

(** The reward saved into an empty collection is earned. *)
Lemma stored_transaction_is_earned_or_spent_witness :
  CoinTransaction.isEarned reward = negb (CoinTransaction.isSpent reward)
  ∧ 0 < CoinTransaction.absoluteAmount reward
  ∧ CoinTransaction.amount reward
    = (if CoinTransaction.isEarned reward
       then CoinTransaction.absoluteAmount reward
       else - CoinTransaction.absoluteAmount reward).
Proof.
  apply (stored_transaction_is_earned_or_spent
           [CoinTransaction.OpSave reward] 1 reward).
  vm_compute. reflexivity.
Defined.

Lemma cancel_pending_settles_witness :
  ∃ ctx',
    CoinTransaction.cancel "변심" (CoinTransaction.mkCtx pendingPurchase ∅)
      = (Ok tt, ctx')
    ∧ CoinTransaction.status (CoinTransaction.this ctx')
      = CoinTransaction.cancelled
    ∧ CoinTransaction.complete ctx'
      = (Throw CoinTransaction.alreadyProcessed, ctx').
Proof.
  destruct (cancel_pending_settles pendingPurchase "변심" ∅)
    as (Hc & Hs & _ & _ & _ & Hagain);
    [reflexivity | vm_compute; reflexivity |].
  eexists. split; [exact Hc|]. split; [exact Hs | exact Hagain].
Defined.

Lemma complete_pending_settles_witness :
  ∃ ctx',
    CoinTransaction.complete (CoinTransaction.mkCtx pendingPurchase ∅)
      = (Ok tt, ctx')
    ∧ CoinTransaction.cancel "변심" ctx'
      = (Throw CoinTransaction.cannotCancel, ctx').
Proof.
  destruct (complete_pending_settles pendingPurchase ∅)
    as (Hc & _ & _ & _ & Hcancel & _);
    [reflexivity | vm_compute; reflexivity |].
  eexists. split; [exact Hc | exact (Hcancel "변심"%string)].
Defined.

(** With the reason appended the description has 205 characters, more than
    the 200 that the schema allows. *)
Lemma cancel_rejected_save_leaves_document_cancelled_witness :
  ∃ d',
    CoinTransaction.cancel "변심" (CoinTransaction.mkCtx longPurchase ∅)
      = (Throw (ValidationError ["description"%string]),
         CoinTransaction.mkCtx d' ∅)
    ∧ CoinTransaction.status d' = CoinTransaction.cancelled
    ∧ CoinTransaction.cancel "변심" (CoinTransaction.mkCtx d' ∅)
      = (Throw CoinTransaction.cannotCancel, CoinTransaction.mkCtx d' ∅).
Proof.
  destruct (cancel_rejected_save_leaves_document_cancelled longPurchase "변심" ∅
              (ValidationError ["description"%string]))
    as (Hc & Hs & Hagain); [reflexivity | vm_compute; reflexivity |].
  eexists. split; [exact Hc|]. split; [exact Hs | apply Hagain].
Defined.

Lemma ledger_never_loses_a_transaction_witness :
  is_Some (CoinTransaction.run
             [CoinTransaction.OpSave overdraft;
              CoinTransaction.OpCancel pendingPurchase "변심"]
             {[ 1%nat := reward ]} !! 1%nat).
Proof.
  apply ledger_never_loses_a_transaction.
  exists reward. vm_compute. reflexivity.
Defined.

(** User 2 owns task 12; user 1 cannot reach it. *)
Lemma foreign_task_is_not_found_witness :
  completeTask acceptAll markCompleted 1 12 noCompletionData allDone
    = (Throw taskNotFound, allDone)
  ∧ toggleTaskCompletion acceptAll 1 12 (Some false) at1000 allDone
    = (Throw taskNotFound, allDone)
  ∧ createGrowthAlbum acceptAll 1 12 upload allDone
    = (Throw taskNotFound, allDone)
  ∧ deleteTask 1 12 allDone = (Throw taskNotFound, allDone).
Proof.
  apply (foreign_task_is_not_found acceptAll markCompleted 1 12 allDone).
  intros t Ht Hid.
  assert (E : tasks allDone
              = [task 10 1 jan15 true; task 11 1 jan15 true;
                 task 12 2 jan15 true; task 13 1 jan16 false]) by reflexivity.
  rewrite E in Ht.
  repeat (apply elem_of_cons in Ht as [->|Ht];
          [first [discriminate Hid | simpl; lia]|]).
  now apply elem_of_nil in Ht.
Defined.

(** Task 12 of the database with one open task is completed at 10:00. *)
Lemma toggle_sets_flag_and_stamp_witness :
  ∃ w',
    toggleTaskCompletion acceptAll 1 12 (Some true) at1000 oneOpen
      = (Ok (set_completion true (Some at1000) (task 12 1 jan15 false)), w')
    ∧ length (tasks w') = length (tasks oneOpen).
Proof.
  destruct (toggle_sets_flag_and_stamp acceptAll 1 12 (Some true) at1000
              oneOpen (task 12 1 jan15 false))
    as (w' & Hrun & _ & _ & _ & Hlen & _);
    [vm_compute; reflexivity | reflexivity |].
  exists w'. split; [exact Hrun | exact Hlen].
Defined.

Lemma toggle_twice_restores_flag_witness :
  ∃ t2 w1 w2,
    toggleTaskCompletion acceptAll 1 10 None at1000 allDone
      = (Ok (set_completion false None (task 10 1 jan15 true)), w1)
    ∧ toggleTaskCompletion acceptAll 1 10 None at1005 w1 = (Ok t2, w2)
    ∧ Task.isCompleted t2 = true
    ∧ Task.completedAt t2 = Some at1005.
Proof.
  destruct (toggle_twice_restores_flag acceptAll 1 10 at1000 at1005 allDone
              (task 10 1 jan15 true))
    as (w1 & w2 & H1 & H2 & H3 & H4);
    [vm_compute; reflexivity | reflexivity | reflexivity |].
  eexists _, w1, w2. split; [exact H1|]. split; [exact H2|].
  split; [exact H3 | exact H4].
Defined.

(** After the reward of 10:00, task 10 is re-opened at 10:05. *)
Lemma toggle_on_rewarded_day_gives_no_reward_witness :
  let w1 := set_tasks (upsert (set_completion false None (task 10 1 jan15 true)))
                      rewardedDay in
  checkDailyTaskCompletion seoul 1 at1005 at1005' w1 = (Ok None, w1)
  ∧ users w1 !! 1%nat = Some rewardedUser.
Proof.
  apply (toggle_on_rewarded_day_gives_no_reward acceptAll seoul 1 10 None
           rewardedUser at1005 at1005 at1005' rewardedDay _
           (set_completion false None (task 10 1 jan15 true))).
  - vm_compute. reflexivity.
  - vm_compute. reflexivity.
  - vm_compute. reflexivity.
Defined.

Lemma completing_last_open_task_mints_witness :
  ∃ t' w1,
    toggleTaskCompletion acceptAll 1 12 (Some true) at1000 oneOpen
      = (Ok t', w1)
    ∧ Task.isCompleted t' = true
    ∧ checkDailyTaskCompletion seoul 1 at1000 at1000' w1
      = (Ok (Some (mkCoinReward true 1 (User.coins premiumUser + 1)
                                rewardMessage)),
         set_users <[1%nat := credited premiumUser at1000']> w1).
Proof.
  apply (completing_last_open_task_mints acceptAll seoul 1 12 premiumUser
           at1000 at1000 at1000' oneOpen (task 12 1 jan15 false)).
  - apply (bool_decide_unpack _). vm_compute. exact I.
  - vm_compute. reflexivity.
  - reflexivity.
  - reflexivity.
  - vm_compute. reflexivity.
  - vm_compute. do 2 apply list_elem_of_further. apply list_elem_of_here.
  - intros x Hx Hne.
    assert (E : todayTasks seoul 1 at1000 oneOpen
                = [task 10 1 jan15 true; task 11 1 jan15 true;
                   task 12 1 jan15 false; task 13 1 jan15 true;
                   task 14 1 jan15 true]) by (vm_compute; reflexivity).
    rewrite E in Hx.
    repeat (apply elem_of_cons in Hx as [->|Hx];
            [first [reflexivity | now destruct Hne]|]).
    now apply elem_of_nil in Hx.
  - reflexivity.
Defined.

Lemma delete_removes_task_and_albums_witness :
  ∃ w',
    deleteTask 1 10 allDone = (Ok (mkDeleteResult true), w')
    ∧ Task_findOne 10 1 w' = (Ok None, w')
    ∧ users w' = users allDone.
Proof.
  destruct (delete_removes_task_and_albums 1 10 allDone (task 10 1 jan15 true))
    as (w' & Hd & _ & Hgone & _ & Hu); [vm_compute; reflexivity|].
  exists w'. split; [exact Hd|]. split; [apply Hgone | exact Hu].
Defined.

Lemma album_is_deleted_with_its_task_witness :
  ∃ a w1 w2,
    createGrowthAlbum acceptAll 1 10 upload allDone = (Ok a, w1)
    ∧ a ∈ growthAlbums w1
    ∧ deleteTask 1 10 w1 = (Ok (mkDeleteResult true), w2)
    ∧ (∀ b, b ∈ growthAlbums w2 → GrowthAlbum.taskId b ≠ 10%nat).
Proof.
  destruct (album_is_deleted_with_its_task acceptAll 1 10 upload allDone
              (task 10 1 jan15 true))
    as (a & w1 & w2 & t1 & Hc & Ha & _ & _ & _ & Hd & Hnone);
    [vm_compute; reflexivity | reflexivity |].
  exists a, w1, w2. repeat split; assumption.
Defined.

Lemma album_stays_when_flagging_fails_witness :
  ∃ w',
    createGrowthAlbum rejectFlagged 1 10 upload allDone
      = (Throw (mkError "Task validation failed" None), w')
    ∧ growthAlbums w' = growthAlbums allDone ++ [newAlbum 1 10 upload]
    ∧ tasks w' = tasks allDone.
Proof.
  apply (album_stays_when_flagging_fails rejectFlagged 1 10 upload allDone
           (task 10 1 jan15 true)).
  - vm_compute. reflexivity.
  - reflexivity.
  - reflexivity.
Defined.


(** User 1 is rewarded; the document of user 2 is as before. *)
Lemma gate_touches_only_the_caller_witness :
  users (snd (checkDailyTaskCompletion seoul 1 at1000 at1000' allDone))
    !! 2%nat
  = users allDone !! 2%nat
  ∧ tasks (snd (checkDailyTaskCompletion seoul 1 at1000 at1000' allDone))
    = tasks allDone.
Proof.
  destruct (gate_touches_only_the_caller seoul 1 at1000 at1000' allDone
              (snd (checkDailyTaskCompletion seoul 1 at1000 at1000' allDone))
              (fst (checkDailyTaskCompletion seoul 1 at1000 at1000' allDone)))
    as (Ht & _ & _ & Hother & _).
  - now destruct (checkDailyTaskCompletion _ _ _ _ _).
  - split; [apply Hother; discriminate | exact Ht].
Defined.

Lemma wallet_follows_ledger_witness :
  ∃ u' appended,
    users (gateCalls seoul threeCalls allDone) !! 1%nat = Some u'
    ∧ User.dailyRewards u' = User.dailyRewards premiumUser ++ appended
    ∧ User.coins u' = User.coins premiumUser + rewardTotal appended
    ∧ User.coins premiumUser ≤ User.coins u'
    ∧ Z.of_nat (length appended) = rewardTotal appended.
Proof.
  apply (wallet_follows_ledger seoul threeCalls allDone 1 premiumUser).
  vm_compute. reflexivity.
Defined.

Lemma one_reward_per_day_is_kept_witness :
  ∃ u', users (gateCalls seoul threeCalls allDone) !! 1%nat = Some u'
        ∧ ∀ day, (rewardsOn day (User.dailyRewards u') ≤ 1)%nat.
Proof.
  apply (one_reward_per_day_is_kept seoul threeCalls allDone 1 premiumUser).
  - repeat constructor.
  - vm_compute. reflexivity.
  - intros day. unfold rewardsOn, premiumUser. simpl. lia.
Defined.

Lemma idle_week_reports_first_day_witness :
  AnalysisService.bestDay idleWeek
  = Some (AnalysisService.mkBucket "2025-01-13" 0 0).
Proof.
  apply (idle_week_reports_first_day
           (AnalysisService.mkBucket "2025-01-13" 0 0)
           [AnalysisService.mkBucket "2025-01-14" 0 0;
            AnalysisService.mkBucket "2025-01-15" 0 0]).
  - intros x Hx.
    repeat (apply elem_of_cons in Hx as [->|Hx]; [simpl; lia|]).
    now apply elem_of_nil in Hx.
  - reflexivity.
Defined.

Lemma confidence_is_monotone_witness :
  AiService.calculateConfidence beginner ≤ AiService.calculateConfidence regular.
Proof.
  apply (confidence_is_monotone beginner regular).
  - simpl. lia.
  - vm_compute. discriminate.
  - simpl. lia.
Defined.

End MoreInstances.
